(** * A shallow embedding of the Luno market maker bot
      (demos/market-maker-5000/market_maker_bot.py).

    Python floats are modelled as exact rationals [Q]; [round] and the
    [:.Nf] format both round half to even on that exact value, as CPython
    does on the exact value of a double.  JSON payloads are modelled by
    [pyval]; Python exceptions by [exn]; the effectful code (HTTP requests,
    logging, [time.sleep], [time.time]) by a state and exception monad run
    against a [world] that answers every request. *)

From Stdlib Require Import ZArith QArith Qround Qabs Lqa Lia List String Ascii Bool Sorted.
Import ListNotations.
Open Scope string_scope.
Open Scope Z_scope.
Set Warnings "-register-all".

(** ** Python values and exceptions *)

Inductive pyval : Type :=
| PNone
| PBool (b : bool)
| PNum (q : Q)
| PStr (s : string)
| PList (l : list pyval)
| PDict (kvs : list (string * pyval)).

Inductive exn : Type :=
| KeyError
| TypeError
| ValueError
| AttributeError
| ZeroDivisionError
| ConnectionError      (* raised by [requests] on a network failure *)
| KeyboardInterrupt.

(** [KeyboardInterrupt] is the only modelled exception that does not derive
    from [Exception]. *)
Definition is_Exception (e : exn) : bool :=
  match e with KeyboardInterrupt => false | _ => true end.

Inductive result (A : Type) : Type :=
| Ok (a : A)
| Exc (e : exn).
Arguments Ok {A} a.
Arguments Exc {A} e.

Definition rbind {A B} (r : result A) (k : A -> result B) : result B :=
  match r with Ok a => k a | Exc e => Exc e end.

Notation "x <-? r ;; k" := (rbind r (fun x => k))
  (at level 61, r at next level, right associativity).

(** Python truthiness. *)
Definition py_truthy (v : pyval) : bool :=
  match v with
  | PNone => false
  | PBool b => b
  | PNum q => negb (Qeq_bool q 0)
  | PStr s => negb (String.eqb s EmptyString)
  | PList l => negb (Nat.eqb (List.length l) 0)
  | PDict kvs => negb (Nat.eqb (List.length kvs) 0)
  end.

Fixpoint assoc_lookup {A} (k : string) (kvs : list (string * A)) : option A :=
  match kvs with
  | [] => None
  | (k', v) :: r => if String.eqb k k' then Some v else assoc_lookup k r
  end.

(** [container[key]] with a string key. *)
Definition py_getitem (v : pyval) (key : string) : result pyval :=
  match v with
  | PDict kvs => match assoc_lookup key kvs with
                 | Some x => Ok x
                 | None => Exc KeyError
                 end
  | _ => Exc TypeError
  end.

(** [d.get(key, default)]: a method of dicts only. *)
Definition py_get (v : pyval) (key : string) (default : pyval) : result pyval :=
  match v with
  | PDict kvs => match assoc_lookup key kvs with
                 | Some x => Ok x
                 | None => Ok default
                 end
  | _ => Exc AttributeError
  end.

Fixpoint is_substring (needle hay : string) : bool :=
  String.prefix needle hay ||
  match hay with
  | EmptyString => false
  | String _ r => is_substring needle r
  end.

(** [key in container] with a string [key]: a string is equal to a list
    element only when that element is the same string. *)
Definition py_contains (key : string) (v : pyval) : result bool :=
  match v with
  | PDict kvs => Ok (match assoc_lookup key kvs with Some _ => true | None => false end)
  | PList l => Ok (existsb (fun x => match x with
                                     | PStr s => String.eqb s key
                                     | _ => false end) l)
  | PStr s => Ok (is_substring key s)
  | _ => Exc TypeError
  end.

(** [for x in v]: the elements of a list, the keys of a dict, the
    characters of a string. *)
Definition py_iter (v : pyval) : result (list pyval) :=
  match v with
  | PList l => Ok l
  | PDict kvs => Ok (map (fun kv => PStr (fst kv)) kvs)
  | PStr s => Ok (map (fun c => PStr (String c EmptyString)) (list_ascii_of_string s))
  | _ => Exc TypeError
  end.

(** [v == s] for a string [s]. *)
Definition py_eq_str (v : pyval) (s : string) : bool :=
  match v with PStr t => String.eqb t s | _ => false end.

(** ** [float(...)]

    Strings are read as an optional sign, decimal digits and an optional
    fraction ([-12], [1000000.00], [.5]); the other spellings CPython
    accepts (surrounding blanks, exponents, [inf], [nan], underscores) are
    not modelled and raise [ValueError] here. *)

Definition digit_value (c : ascii) : option Z :=
  let n := Z.of_nat (nat_of_ascii c) in
  if (48 <=? n) && (n <=? 57) then Some (n - 48) else None.

Fixpoint read_digits (s : string) (acc : Z) (n : nat) : Z * nat * string :=
  match s with
  | String c r =>
      match digit_value c with
      | Some d => read_digits r (acc * 10 + d) (S n)
      | None => (acc, n, s)
      end
  | EmptyString => (acc, n, s)
  end.

Definition pow10 (n : nat) : Z := 10 ^ Z.of_nat n.

Definition parse_unsigned (s : string) : option Q :=
  let '(ip, ni, s2) := read_digits s 0 O in
  match s2 with
  | EmptyString => if Nat.eqb ni 0 then None else Some (inject_Z ip)
  | String c s3 =>
      if Ascii.eqb c "."%char then
        let '(fp, nf, s4) := read_digits s3 0 O in
        match s4 with
        | EmptyString =>
            if Nat.eqb (ni + nf) 0 then None
            else Some (Qmake (ip * pow10 nf + fp) (Z.to_pos (pow10 nf)))
        | String _ _ => None
        end
      else None
  end.

Definition float_of_string (s : string) : option Q :=
  match s with
  | String c r =>
      if Ascii.eqb c "-"%char then option_map Qopp (parse_unsigned r)
      else if Ascii.eqb c "+"%char then parse_unsigned r
      else parse_unsigned s
  | EmptyString => None
  end.

Definition py_float (v : pyval) : result Q :=
  match v with
  | PNum q => Ok q
  | PBool b => Ok (if b then 1 else 0)%Q
  | PStr s => match float_of_string s with
              | Some q => Ok q
              | None => Exc ValueError
              end
  | _ => Exc TypeError
  end.

(** ** [round(x, ndigits)] and [f"{x:.{n}f}"] *)

Definition round_half_even (x : Q) : Z :=
  let f := Qfloor x in
  match Qcompare (x - inject_Z f) (1 # 2) with
  | Lt => f
  | Gt => f + 1
  | Eq => if Z.even f then f else f + 1
  end.

Definition py_round (x : Q) (ndigits : nat) : Q :=
  inject_Z (round_half_even (x * inject_Z (pow10 ndigits))) / inject_Z (pow10 ndigits).

Definition digit_char (d : Z) : ascii := ascii_of_nat (Z.to_nat d + 48).

Fixpoint z_digits (fuel : nat) (n : Z) (acc : string) : string :=
  match fuel with
  | O => acc
  | S f =>
      let acc' := String (digit_char (n mod 10)) acc in
      if n <? 10 then acc' else z_digits f (n / 10) acc'
  end.

(** [str(n)] for [n >= 0]. *)
Definition z_to_dec (n : Z) : string := z_digits (S (Z.to_nat (Z.log2 n))) n EmptyString.

Fixpoint zeros (n : nat) : string :=
  match n with O => EmptyString | S k => String "0" (zeros k) end.

Definition pad_left (width : nat) (s : string) : string :=
  zeros (width - String.length s) ++ s.

Definition format_fixed (x : Q) (prec : nat) : string :=
  let n := round_half_even (Qabs x * inject_Z (pow10 prec)) in
  let sign := if Qlt_le_dec x 0 then "-"%string else EmptyString in
  let ip := z_to_dec (n / pow10 prec) in
  match prec with
  | O => sign ++ ip
  | S _ => sign ++ ip ++ "." ++ pad_left prec (z_to_dec (n mod pow10 prec))
  end.

(** ** Configuration (module-level constants) *)

Definition TRADING_PAIRS : list string :=
  ["XBTZAR"; "ETHZAR"; "XRPZAR"; "ETHXBT"; "USDCZAR"].
Definition SPREAD_PERCENTAGE : Q := 0.5.
Definition ORDER_SIZE_PERCENTAGE : Q := 2.0.
Definition ORDER_EXPIRY_MINUTES : Z := 5.
Definition PRICE_PRECISION : nat := 0.
Definition VOLUME_PRECISION : nat := 6.

Record config := {
  trading_pairs : list string;
  spread_percentage : Q;
  order_size_percentage : Q;
  order_expiry_minutes : Z;
  price_precision : nat;
  volume_precision : nat }.

Definition default_config : config := {|
  trading_pairs := TRADING_PAIRS;
  spread_percentage := SPREAD_PERCENTAGE;
  order_size_percentage := ORDER_SIZE_PERCENTAGE;
  order_expiry_minutes := ORDER_EXPIRY_MINUTES;
  price_precision := PRICE_PRECISION;
  volume_precision := VOLUME_PRECISION |}.

(** ** Quote calculator: [get_market_making_prices] *)

Record prices := { p_bid : Q; p_ask : Q }.

Definition get_market_making_prices (cfg : config) (ticker : pyval) : result prices :=
  bv <-? py_getitem ticker "bid" ;;
  bid <-? py_float bv ;;
  av <-? py_getitem ticker "ask" ;;
  ask <-? py_float av ;;
  let mid := ((bid + ask) / 2)%Q in
  let spread := (mid * spread_percentage cfg / 100)%Q in
  let new_bid := (mid - spread)%Q in
  let new_ask := (mid + spread)%Q in
  Ok {| p_bid := py_round new_bid (price_precision cfg);
        p_ask := py_round new_ask (price_precision cfg) |}.

(** ** Order sizer: [get_asset_balance] and [calculate_order_size] *)

Record asset_balance := { ab_balance : Q; ab_reserved : Q; ab_available : Q }.

Definition zero_balance : asset_balance :=
  {| ab_balance := 0; ab_reserved := 0; ab_available := 0 |}.

(** The [for account in balances] loop of [get_asset_balance]. *)
Fixpoint find_asset_balance (accounts : list pyval) (asset : string) : result asset_balance :=
  match accounts with
  | [] => Ok zero_balance
  | account :: rest =>
      a <-? py_getitem account "asset" ;;
      if py_eq_str a asset then
        bv <-? py_getitem account "balance" ;;
        b <-? py_float bv ;;
        rv <-? py_getitem account "reserved" ;;
        r <-? py_float rv ;;
        Ok {| ab_balance := b; ab_reserved := r; ab_available := (b - r)%Q |}
      else find_asset_balance rest asset
  end.

Definition get_asset_balance (balances : pyval) (asset : string) : result asset_balance :=
  accounts <-? py_iter balances ;;
  find_asset_balance accounts asset.

(** Python's float [/]: division by zero raises. *)
Definition py_div (x y : Q) : result Q :=
  if Qeq_bool y 0 then Exc ZeroDivisionError else Ok (x / y)%Q.

(** [pair[3:]] and [pair[:3]]. *)
Definition quote_asset_of (pair : string) : string :=
  substring 3 (String.length pair - 3) pair.
Definition base_asset_of (pair : string) : string := substring 0 3 pair.

Definition calculate_order_size (cfg : config) (pair : string) (balances : pyval)
    (price : Q) (side : string) : result Q :=
  if String.eqb side "BUY" then
    quote_balance <-? get_asset_balance balances (quote_asset_of pair) ;;
    let available_quote := ab_available quote_balance in
    py_div (available_quote * order_size_percentage cfg / 100)%Q price
  else
    base_balance <-? get_asset_balance balances (base_asset_of pair) ;;
    let available_base := ab_available base_balance in
    Ok (available_base * order_size_percentage cfg / 100)%Q.

(** ** The exchange gateway, logging and the clock *)

Record request := { rq_method : string; rq_endpoint : string;
                    rq_args : list (string * pyval) }.

(** The lines written by [log]. *)
Inductive logmsg : Type :=
| LStarting
| LMissingCredentials
| LApiError (status : Z)
| LCreated (order_type pair volume price : string) (order_id : pyval)
| LFailedCreate (order_type pair : string)
| LCancelled (order_id : pyval)
| LFailedCancel (order_id : pyval)
| LFailedBalances
| LProcessingPair (pair : string)
| LFailedTicker (pair : string)
| LPlacing
| LWaiting (minutes : Z)
| LStopped
| LUnexpected (e : exn).

Inductive event : Type :=
| EReq (r : request)
| ELog (m : logmsg)
| ESleep (seconds : Z).

(** What [requests.get]/[requests.post] does with the [n]-th request:
    an HTTP response, a network failure it raises, or a Ctrl-C arriving
    while it blocks. *)
Inductive response : Type :=
| RHttp (status : Z) (body : pyval)
| RConnErr
| RInterrupt.

Record world := {
  gw : nat -> request -> response;
  sleep_interrupted : nat -> bool;
  clock : nat -> Q }.

Record state := { trace : list event; nreq : nat; nsleep : nat }.

Definition init_state : state := {| trace := []; nreq := O; nsleep := O |}.

Definition is_success (status : Z) : bool :=
  existsb (Z.eqb status) [200; 201; 202].

Definition req_GET (endpoint : string) (params : list (string * pyval)) : request :=
  {| rq_method := "GET"; rq_endpoint := endpoint; rq_args := params |}.
Definition req_POST (endpoint : string) (data : list (string * pyval)) : request :=
  {| rq_method := "POST"; rq_endpoint := endpoint; rq_args := data |}.

(** ** A state and exception monad *)

Definition M (A : Type) : Type := state -> result A * state.

Definition ret {A} (a : A) : M A := fun s => (Ok a, s).
Definition raise {A} (e : exn) : M A := fun s => (Exc e, s).
Definition bind {A B} (m : M A) (k : A -> M B) : M B :=
  fun s => match m s with
           | (Ok a, s') => k a s'
           | (Exc e, s') => (Exc e, s')
           end.
Definition lift {A} (r : result A) : M A := fun s => (r, s).
(** [try: m except e: h e] *)
Definition try_except {A} (m : M A) (h : exn -> M A) : M A :=
  fun s => match m s with
           | (Exc e, s') => h e s'
           | r => r
           end.

Notation "x <- m ;; k" := (bind m (fun x => k))
  (at level 61, m at next level, right associativity).
Notation "m ;; k" := (bind m (fun _ => k))
  (at level 61, right associativity).

Section Bot.
Variable w : world.

Definition emit (e : event) : M unit :=
  fun s => (Ok tt, {| trace := app (trace s) [e]; nreq := nreq s; nsleep := nsleep s |}).

Definition log (m : logmsg) : M unit := emit (ELog m).

Definition time_time : M Q := fun s => (Ok (clock w (nreq s)), s).

Definition time_sleep (seconds : Z) : M unit :=
  fun s =>
    let s' := {| trace := app (trace s) [ESleep seconds]; nreq := nreq s;
                 nsleep := S (nsleep s) |} in
    if sleep_interrupted w (nsleep s) then (Exc KeyboardInterrupt, s') else (Ok tt, s').

(** Sends [r]: the request is recorded, then answered by the world. *)
Definition send (r : request) : M response :=
  fun s => (Ok (gw w (nreq s) r),
            {| trace := app (trace s) [EReq r]; nreq := S (nreq s); nsleep := nsleep s |}).

Definition make_request (r : request) : M pyval :=
  resp <- send r ;;
  match resp with
  | RConnErr => raise ConnectionError
  | RInterrupt => raise KeyboardInterrupt
  | RHttp status body =>
      if is_success status then ret body
      else log (LApiError status) ;; ret PNone
  end.

Definition get_balances : M pyval := make_request (req_GET "accounts" []).

Definition ticker_req (pair : string) : request := req_GET "ticker" [("pair", PStr pair)].

Definition get_ticker (pair : string) : M pyval := make_request (ticker_req pair).

Definition order_data (cfg : config) (pair order_type : string) (volume price : Q)
    : list (string * pyval) :=
  [("pair", PStr pair); ("type", PStr order_type);
   ("volume", PStr (format_fixed volume (volume_precision cfg)));
   ("price", PStr (format_fixed price (price_precision cfg)));
   ("post_only", PStr "true")].

Definition create_order (cfg : config) (pair order_type : string) (volume price : Q) : M pyval :=
  let failed := log (LFailedCreate order_type pair) ;; ret PNone in
  response <- make_request (req_POST "postorder" (order_data cfg pair order_type volume price)) ;;
  if py_truthy response then
    has_id <- lift (py_contains "order_id" response) ;;
    if has_id then
      order_id <- lift (py_getitem response "order_id") ;;
      log (LCreated order_type pair (format_fixed volume (volume_precision cfg))
                    (format_fixed price (price_precision cfg)) order_id) ;;
      ret order_id
    else failed
  else failed.

Definition stop_req (order_id : pyval) : request := req_POST "stoporder" [("order_id", order_id)].

Definition cancel_order (order_id : pyval) : M bool :=
  let failed := log (LFailedCancel order_id) ;; ret false in
  response <- make_request (stop_req order_id) ;;
  if py_truthy response then
    success <- lift (py_get response "success" (PBool false)) ;;
    if py_truthy success then log (LCancelled order_id) ;; ret true
    else failed
  else failed.

Definition list_req (pair : option string) : request :=
  req_GET "listorders"
    (match pair with
     | Some p => if py_truthy (PStr p) then [("pair", PStr p)] else []
     | None => []
     end).

Definition get_open_orders (pair : option string) : M pyval := make_request (list_req pair).

(** [for x in l: f(x)] *)
Fixpoint for_each {A} (f : A -> M unit) (l : list A) : M unit :=
  match l with
  | [] => ret tt
  | x :: r => f x ;; for_each f r
  end.

Definition cancel_listed (order : pyval) : M unit :=
  order_id <- lift (py_getitem order "order_id") ;;
  _ <- cancel_order order_id ;;
  ret tt.

Definition cancel_all_orders (pair : option string) : M unit :=
  orders <- get_open_orders pair ;;
  if negb (py_truthy orders) then ret tt
  else
    has_orders <- lift (py_contains "orders" orders) ;;
    if negb has_orders then ret tt
    else
      listed <- lift (py_getitem orders "orders") ;;
      items <- lift (py_iter listed) ;;
      for_each cancel_listed items.

(** An entry of the [active_orders] dict. *)
Record active_order := {
  ao_pair : string; ao_type : string; ao_price : Q; ao_volume : Q; ao_created_at : Q }.

(** [active_orders[order_id] = {...}]: entries are appended; a lookup
    reads the last entry for a key. *)
Definition active_orders := list (pyval * active_order).

Definition Qltb (x y : Q) : bool := negb (Qle_bool y x).

(** Places one side of the quote: lines 184-194 (BUY) and 197-207 (ASK)
    of [place_market_making_orders]. *)
Definition place_side (cfg : config) (pair : string) (balances : pyval)
    (price : Q) (side order_type : string) (active : active_orders) : M active_orders :=
  volume <- lift (calculate_order_size cfg pair balances price side) ;;
  if Qltb 0 volume then
    order_id <- create_order cfg pair order_type volume price ;;
    if py_truthy order_id then
      now <- time_time ;;
      ret (app active [(order_id, {| ao_pair := pair; ao_type := order_type; ao_price := price;
                                    ao_volume := volume; ao_created_at := now |})])
    else ret active
  else ret active.

(** The body of [for pair in TRADING_PAIRS]. *)
Definition process_pair (cfg : config) (balances : pyval) (pair : string)
    (active : active_orders) : M active_orders :=
  log (LProcessingPair pair) ;;
  ticker <- get_ticker pair ;;
  if negb (py_truthy ticker) then log (LFailedTicker pair) ;; ret active
  else
    prices <- lift (get_market_making_prices cfg ticker) ;;
    cancel_all_orders (Some pair) ;;
    active1 <- place_side cfg pair balances (p_bid prices) "BUY" "BID" active ;;
    place_side cfg pair balances (p_ask prices) "ASK" "ASK" active1.

Fixpoint process_pairs (cfg : config) (balances : pyval) (pairs : list string)
    (active : active_orders) : M active_orders :=
  match pairs with
  | [] => ret active
  | pair_ :: rest =>
      active1 <- process_pair cfg balances pair_ active ;;
      process_pairs cfg balances rest active1
  end.

Definition place_market_making_orders (cfg : config) : M (option active_orders) :=
  balances_response <- get_balances ;;
  if negb (py_truthy balances_response) then log LFailedBalances ;; ret None
  else
    active <- process_pairs cfg balances_response (trading_pairs cfg) [] ;;
    ret (Some active).

(** [while True:], run for at most [fuel] cycles. *)
Fixpoint run_loop (cfg : config) (fuel : nat) : M unit :=
  match fuel with
  | O => ret tt
  | S n =>
      log LPlacing ;;
      _ <- place_market_making_orders cfg ;;
      log (LWaiting (order_expiry_minutes cfg)) ;;
      time_sleep (order_expiry_minutes cfg * 60) ;;
      run_loop cfg n
  end.

Definition main_handler (e : exn) : M unit :=
  match e with
  | KeyboardInterrupt => log LStopped ;; cancel_all_orders None
  | _ => if is_Exception e then log (LUnexpected e) ;; cancel_all_orders None
         else raise e
  end.

(** [main()]; [credentials_set] stands for [API_KEY and API_SECRET]. *)
Definition main (cfg : config) (credentials_set : bool) (fuel : nat) : M unit :=
  log LStarting ;;
  if negb credentials_set then log LMissingCredentials
  else try_except (run_loop cfg fuel) main_handler.

End Bot.

(** ** Concrete worlds used as witnesses and counterexamples *)

Definition acct (a b r : string) : pyval :=
  PDict [("asset", PStr a); ("balance", PStr b); ("reserved", PStr r)].
Definition demo_accounts : pyval :=
  PList [acct "XBT" "0.05" "0"; acct "ZAR" "10000" "0"; acct "ETH" "1" "0"].
Definition demo_ticker (pair : string) : pyval :=
  if String.eqb pair "ETHXBT" then PDict [("bid", PStr "0.018"); ("ask", PStr "0.0181")]
  else PDict [("bid", PStr "1000000"); ("ask", PStr "1002000")].
Definition demo_gw (n : nat) (r : request) : response :=
  if String.eqb (rq_endpoint r) "accounts" then RHttp 200 demo_accounts
  else if String.eqb (rq_endpoint r) "ticker" then
    match rq_args r with
    | [(_, PStr p)] => if String.eqb p "XRPZAR" then RHttp 500 PNone else RHttp 200 (demo_ticker p)
    | _ => RHttp 400 PNone end
  else if String.eqb (rq_endpoint r) "listorders" then
    RHttp 200 (PDict [("orders", PList [PDict [("order_id", PStr "OLD1")]])])
  else if String.eqb (rq_endpoint r) "stoporder" then RHttp 200 (PDict [("success", PBool true)])
  else RHttp 200 (PDict [("order_id", PStr "NEW")]).
Definition demo_world : world := {| gw := demo_gw; sleep_interrupted := fun k => Nat.eqb k 1; clock := fun _ => 0%Q |}.

(** One rand in the quote currency: 2% of it buys less than 0.0000005 XBT. *)
Definition small_world : world := {|
  gw := fun _ r =>
    if String.eqb (rq_endpoint r) "accounts" then RHttp 200 (PList [acct "ZAR" "1" "0"])
    else if String.eqb (rq_endpoint r) "ticker" then
      RHttp 200 (PDict [("bid", PStr "1000000"); ("ask", PStr "1002000")])
    else if String.eqb (rq_endpoint r) "listorders" then RHttp 200 (PDict [("orders", PList [])])
    else RHttp 200 (PDict [("order_id", PStr "BXY1")]);
  sleep_interrupted := fun _ => false;
  clock := fun _ => 0%Q |}.

(** The ticker of every pair lacks its [bid]. *)
Definition nobid_world : world := {|
  gw := fun _ r =>
    if String.eqb (rq_endpoint r) "accounts" then RHttp 200 demo_accounts
    else if String.eqb (rq_endpoint r) "ticker" then RHttp 200 (PDict [("ask", PStr "1002000")])
    else if String.eqb (rq_endpoint r) "listorders" then RHttp 200 (PDict [("orders", PList [])])
    else RHttp 200 (PDict [("order_id", PStr "N1")]);
  sleep_interrupted := fun _ => false;
  clock := fun _ => 0%Q |}.

(** The network fails on the XRPZAR ticker request. *)
Definition conn_world : world := {|
  gw := fun n r =>
    if String.eqb (rq_endpoint r) "ticker" then
      match rq_args r with
      | [(_, PStr "XRPZAR")] => RConnErr
      | _ => demo_gw n r
      end
    else demo_gw n r;
  sleep_interrupted := fun _ => false;
  clock := fun _ => 0%Q |}.



(** Every request is answered with HTTP 503 and no body. *)
Definition down_world : world := {|
  gw := fun _ _ => RHttp 503 PNone;
  sleep_interrupted := fun _ => false;
  clock := fun _ => 0%Q |}.

(** ** The demo and test scripts (run_demo.py, test_bot.py) *)

(** [get_order_book] of the bot. *)
Definition get_order_book (w : world) (pair : string) : M pyval :=
  make_request w (req_GET "orderbook" [("pair", PStr pair)]).

(** The parts of a printed line: literal text, [{v}] of a JSON value,
    [{x}] of a float (its [repr], not modelled further), [{x:.nf}], and
    [s.ljust(width)] of a part. *)
Inductive fpart : Type :=
| FText (s : string)
| FStr (v : pyval)
| FFloat (x : Q)
| FFixed (x : Q) (prec : nat)
| FLjust (width : nat) (p : fpart)
| FHelp.                      (* the usage text of [parser.print_help()] *)

(** One call of [print]: its arguments joined by the separator [" "]. *)
Definition pline := list fpart.

Definition nl : string := String (ascii_of_nat 10) EmptyString.

Fixpoint str_repeat (n : nat) (s : string) : string :=
  match n with O => EmptyString | S k => s ++ str_repeat k s end.

(** [s.ljust(width)] of a literal string. *)
Definition ljust (width : nat) (s : string) : string :=
  s ++ str_repeat (width - String.length s) " ".

(** The scripts run the bot's functions and print: the bot state, and the
    printed lines, each with the length of the bot's trace when it was
    printed (so its place among the bot's own log lines is kept). *)
Record dstate := { dbot : state; dout : list (nat * pline) }.

Definition DM (A : Type) : Type := dstate -> result A * dstate.

Definition dret {A} (a : A) : DM A := fun s => (Ok a, s).
Definition dbind {A B} (m : DM A) (k : A -> DM B) : DM B :=
  fun s => match m s with
           | (Ok a, s') => k a s'
           | (Exc e, s') => (Exc e, s')
           end.
(** A call into the bot module. *)
Definition dM {A} (m : M A) : DM A :=
  fun s => let (r, b) := m (dbot s) in (r, {| dbot := b; dout := dout s |}).
(** A pure step that may raise. *)
Definition dR {A} (r : result A) : DM A := fun s => (r, s).
Definition print (l : pline) : DM unit :=
  fun s => (Ok tt, {| dbot := dbot s;
                      dout := app (dout s) [(List.length (trace (dbot s)), l)] |}).

Notation "x <-- m ;;; k" := (dbind m (fun x => k))
  (at level 61, m at next level, right associativity).
Notation "m ;;; k" := (dbind m (fun _ => k))
  (at level 61, right associativity).

Fixpoint dfor_each {A} (f : A -> DM unit) (l : list A) : DM unit :=
  match l with
  | [] => dret tt
  | x :: r => f x ;;; dfor_each f r
  end.

(** [v[:n]]: a prefix of a list or a string.  Other values raise
    [TypeError] (a dict only since Python 3.12 raises [KeyError] instead). *)
Definition py_slice_to (v : pyval) (n : nat) : result pyval :=
  match v with
  | PList l => Ok (PList (firstn n l))
  | PStr s => Ok (PStr (substring 0 n s))
  | _ => Exc TypeError
  end.

(** [for i, e in enumerate(order_book.get(key, [])[:n]):
         print(f"  {e.get('volume')} @ {e.get('price')}")] *)
Definition print_book_side (order_book : pyval) (key : string) (n : nat) : DM unit :=
  side <-- dR (py_get order_book key (PList [])) ;;;
  top <-- dR (py_slice_to side n) ;;;
  entries <-- dR (py_iter top) ;;;
  dfor_each (fun e =>
    volume <-- dR (py_get e "volume" PNone) ;;;
    price <-- dR (py_get e "price" PNone) ;;;
    print [FText "  "; FStr volume; FText " @ "; FStr price]) entries.

(** The two order book listings of [run_demo] ([n = 3]) and
    [test_market_data] ([n = 5]), for a truthy [order_book]. *)
Definition print_book (order_book : pyval) (n : nat) : DM unit :=
  print [FText "Asks (Sell orders):"] ;;;
  print_book_side order_book "asks" n ;;;
  print [FText "Bids (Buy orders):"] ;;;
  print_book_side order_book "bids" n.

(** *** run_demo.py *)

(** [next((b for b in balances if b["asset"] == asset), None)] over the
    items of [balances]. *)
Fixpoint next_matching (items : list pyval) (asset : string) : result pyval :=
  match items with
  | [] => Ok PNone
  | b :: rest =>
      a <-? py_getitem b "asset" ;;
      if py_eq_str a asset then Ok b else next_matching rest asset
  end.

(** [float(b.get("balance", 0))] *)
Definition balance_of (b : pyval) : result Q :=
  v <-? py_get b "balance" (PNum 0) ;;
  py_float v.

Definition small_volume : Q := 1 # 1000.

Definition run_demo (w : world) (cfg : config) : DM unit :=
  let banner := [FText (str_repeat 80 "=")] in
  print banner ;;;
  print [FText "LUNO MARKET MAKER BOT - DEMO"] ;;;
  print banner ;;;
  let pair := "XBTZAR" in
  print [FText (nl ++ "Running demo for " ++ pair ++ "..." ++ nl)] ;;;
  print [FText "Fetching account balances..."] ;;;
  balances <-- dM (get_balances w) ;;;
  if negb (py_truthy balances) then
    print [FText "Failed to get account balances. Please check your API credentials."]
  else
  let base_asset := "XBT" in
  let quote_asset := "ZAR" in
  items <-- dR (py_iter balances) ;;;
  base_balance <-- dR (next_matching items base_asset) ;;;
  items' <-- dR (py_iter balances) ;;;
  quote_balance <-- dR (next_matching items' quote_asset) ;;;
  (if py_truthy base_balance && py_truthy quote_balance then
     b <-- dR (balance_of base_balance) ;;;
     print [FText (base_asset ++ " Balance: "); FFloat b] ;;;
     q <-- dR (balance_of quote_balance) ;;;
     print [FText (quote_asset ++ " Balance: "); FFloat q]
   else dret tt) ;;;
  print [FText (nl ++ "Fetching market data...")] ;;;
  ticker <-- dM (get_ticker w pair) ;;;
  if negb (py_truthy ticker) then
    print [FText "Failed to get market data. Please check the trading pair."]
  else
  last_trade <-- dR (py_get ticker "last_trade" PNone) ;;;
  print [FText "Last trade price: "; FStr last_trade] ;;;
  bid <-- dR (py_get ticker "bid" PNone) ;;;
  print [FText "Current bid: "; FStr bid] ;;;
  ask <-- dR (py_get ticker "ask" PNone) ;;;
  print [FText "Current ask: "; FStr ask] ;;;
  prices <-- dR (get_market_making_prices cfg ticker) ;;;
  print [FText (nl ++ "Calculated market making prices:")] ;;;
  print [FText "Bid price: "; FFloat (p_bid prices)] ;;;
  print [FText "Ask price: "; FFloat (p_ask prices)] ;;;
  order_book <-- dM (get_order_book w pair) ;;;
  print [FText (nl ++ "Current order book (top 3 entries):")] ;;;
  (if py_truthy order_book then print_book order_book 3 else dret tt) ;;;
  print [FText (nl ++ "Placing a demo order...")] ;;;
  enough_balance <--
    (if py_truthy base_balance then
       b <-- dR (balance_of base_balance) ;;; dret (Qltb small_volume b)
     else dret false) ;;;
  if enough_balance then
    print [FText "Placing a sell order for "; FFloat small_volume; FText (" " ++ base_asset ++ " @ ");
           FFloat (p_ask prices); FText (" " ++ quote_asset)] ;;;
    order_id <-- dM (create_order w cfg pair "ASK" small_volume (p_ask prices)) ;;;
    if py_truthy order_id then
      print [FText (nl ++ "Order successfully placed!")] ;;;
      print [FText "Order ID: "; FStr order_id] ;;;
      print [FText (nl ++ "Demo completed successfully!")]
    else print [FText (nl ++ "Failed to place the order. Check the error logs.")]
  else
    print [FText ("Not enough " ++ base_asset ++ " balance to place a demo order.")] ;;;
    print [FText "Demo completed without placing an order."].

(** *** test_bot.py *)

Definition print_header (title : string) : DM unit :=
  print [FText (nl ++ str_repeat 80 "=")] ;;;
  print [FText (" " ++ title)] ;;;
  print [FText (str_repeat 80 "=")].

(** The key of [sorted(balances, key=lambda x: float(x.get("balance", 0)), ...)],
    computed for every item before any comparison. *)
Fixpoint keyed (items : list pyval) : result (list (Q * pyval)) :=
  match items with
  | [] => Ok []
  | x :: rest =>
      k <-? balance_of x ;;
      ks <-? keyed rest ;;
      Ok ((k, x) :: ks)
  end.

(** [reverse=True] keeps the sort stable: an item goes after every earlier
    item whose key is not smaller. *)
Fixpoint insert_desc (e : Q * pyval) (l : list (Q * pyval)) : list (Q * pyval) :=
  match l with
  | [] => [e]
  | y :: rest => if Qle_bool (fst e) (fst y) then y :: insert_desc e rest else e :: l
  end.

Definition sort_desc (l : list (Q * pyval)) : list (Q * pyval) :=
  fold_left (fun acc e => insert_desc e acc) l [].

Definition balance_row (account : pyval) : DM unit :=
  asset <-- dR (py_get account "asset" (PStr "")) ;;;
  balance <-- dR (balance_of account) ;;;
  rv <-- dR (py_get account "reserved" (PNum 0)) ;;;
  reserved <-- dR (py_float rv) ;;;
  let available := (balance - reserved)%Q in
  if Qltb 0 balance then
    print [FLjust 10 (FStr asset); FText " "; FLjust 20 (FFixed balance 8); FText " ";
           FLjust 20 (FFixed reserved 8); FText " "; FLjust 20 (FFixed available 8)]
  else dret tt.

Definition test_balance_check (w : world) : DM unit :=
  print_header "ACCOUNT BALANCES" ;;;
  balances <-- dM (get_balances w) ;;;
  if py_truthy balances then
    items <-- dR (py_iter balances) ;;;
    ks <-- dR (keyed items) ;;;
    let sorted_balances := map snd (sort_desc ks) in
    print [FText (ljust 10 "Asset"); FText " "; FText (ljust 20 "Balance"); FText " ";
           FText (ljust 20 "Reserved"); FText " "; FText (ljust 20 "Available")] ;;;
    print [FText (str_repeat 70 "-")] ;;;
    dfor_each balance_row sorted_balances
  else dret tt.

Definition test_market_data (w : world) (cfg : config) (pair : string) : DM unit :=
  print_header ("MARKET DATA FOR " ++ pair) ;;;
  print [FText (nl ++ "Ticker:")] ;;;
  ticker <-- dM (get_ticker w pair) ;;;
  (if py_truthy ticker then
     last_trade <-- dR (py_get ticker "last_trade" (PStr "N/A")) ;;;
     print [FText "Last trade: "; FStr last_trade] ;;;
     bid <-- dR (py_get ticker "bid" (PStr "N/A")) ;;;
     print [FText "Bid: "; FStr bid] ;;;
     ask <-- dR (py_get ticker "ask" (PStr "N/A")) ;;;
     print [FText "Ask: "; FStr ask] ;;;
     vol <-- dR (py_get ticker "rolling_24_hour_volume" (PStr "N/A")) ;;;
     print [FText "24h volume: "; FStr vol] ;;;
     prices <-- dR (get_market_making_prices cfg ticker) ;;;
     print [FText (nl ++ "Market Making Prices:")] ;;;
     print [FText "Bid (Buy) price: "; FFloat (p_bid prices)] ;;;
     print [FText "Ask (Sell) price: "; FFloat (p_ask prices)]
   else dret tt) ;;;
  print [FText (nl ++ "Order Book (Top 5 entries):")] ;;;
  order_book <-- dM (get_order_book w pair) ;;;
  if py_truthy order_book then print_book order_book 5 else dret tt.

Definition test_order_sizing (w : world) (cfg : config) (pair : string) : DM unit :=
  print_header ("ORDER SIZE CALCULATION FOR " ++ pair) ;;;
  balances <-- dM (get_balances w) ;;;
  ticker <-- dM (get_ticker w pair) ;;;
  if py_truthy balances && py_truthy ticker then
    bv <-- dR (py_get ticker "bid" (PNum 0)) ;;;
    bid_price <-- dR (py_float bv) ;;;
    av <-- dR (py_get ticker "ask" (PNum 0)) ;;;
    ask_price <-- dR (py_float av) ;;;
    let mid_price := if negb (Qeq_bool bid_price 0) && negb (Qeq_bool ask_price 0)
                     then ((bid_price + ask_price) / 2)%Q else 0%Q in
    if Qltb 0 mid_price then
      buy_size <-- dR (calculate_order_size cfg pair balances mid_price "BUY") ;;;
      print [FText "Buy order size at price "; FFloat mid_price; FText ": "; FFixed buy_size 8] ;;;
      sell_size <-- dR (calculate_order_size cfg pair balances mid_price "ASK") ;;;
      print [FText "Sell order size at price "; FFloat mid_price; FText ": "; FFixed sell_size 8]
    else print [FText "Could not calculate order sizes, invalid price data"]
  else dret tt.

Definition print_open_order (order : pyval) : DM unit :=
  oid <-- dR (py_get order "order_id" PNone) ;;;
  print [FText "Order ID: "; FStr oid] ;;;
  p <-- dR (py_get order "pair" (PStr "N/A")) ;;;
  print [FText "  Pair: "; FStr p] ;;;
  t <-- dR (py_get order "type" (PStr "N/A")) ;;;
  print [FText "  Type: "; FStr t] ;;;
  pr <-- dR (py_get order "price" (PStr "N/A")) ;;;
  print [FText "  Price: "; FStr pr] ;;;
  v <-- dR (py_get order "volume" (PStr "N/A")) ;;;
  print [FText "  Volume: "; FStr v] ;;;
  c <-- dR (py_get order "creation_timestamp" (PStr "N/A")) ;;;
  print [FText "  Created: "; FStr c] ;;;
  print [].

Definition test_open_orders (w : world) (pair : option string) : DM unit :=
  print_header ("OPEN ORDERS" ++ match pair with
                                 | Some p => if py_truthy (PStr p) then " FOR " ++ p else ""
                                 | None => ""
                                 end) ;;;
  orders <-- dM (get_open_orders w pair) ;;;
  has_orders <-- (if py_truthy orders then dR (py_contains "orders" orders) else dret false) ;;;
  if has_orders then
    orders_list <-- dR (py_getitem orders "orders") ;;;
    if py_truthy orders_list then
      items <-- dR (py_iter orders_list) ;;;
      dfor_each print_open_order items
    else print [FText "No open orders found."]
  else print [FText "Failed to retrieve open orders."].

(** The parsed command line: two [store_true] flags, two optional pair
    names, and [--all]. *)
Record test_args := {
  a_balances : bool; a_market : option string; a_orders : option string;
  a_open_orders : bool; a_all : bool }.

Definition opt_truthy (o : option string) : bool :=
  match o with Some s => py_truthy (PStr s) | None => false end.

Definition test_pairs (o : option string) : list string :=
  match o with
  | Some p => if py_truthy (PStr p) then [p] else ["XBTZAR"; "ETHZAR"; "XRPZAR"; "ETHXBT"; "USDCZAR"]
  | None => ["XBTZAR"; "ETHZAR"; "XRPZAR"; "ETHXBT"; "USDCZAR"]
  end.

(** [main()] of test_bot.py after [parser.parse_args()].  [args.open_orders]
    comes from a [store_true] flag, a bool, so [isinstance(args.open_orders, str)]
    fails and the open orders are listed with [None]. *)
Definition test_main (w : world) (cfg : config) (args : test_args) : DM unit :=
  if negb (a_balances args || opt_truthy (a_market args) || opt_truthy (a_orders args) ||
           a_open_orders args || a_all args)
  then print [FHelp]
  else
    (if a_balances args || a_all args then test_balance_check w else dret tt) ;;;
    (if opt_truthy (a_market args) || a_all args
     then dfor_each (test_market_data w cfg) (test_pairs (a_market args)) else dret tt) ;;;
    (if opt_truthy (a_orders args) || a_all args
     then dfor_each (test_order_sizing w cfg) (test_pairs (a_orders args)) else dret tt) ;;;
    (if a_open_orders args || a_all args then test_open_orders w None else dret tt).

Definition dinit : dstate := {| dbot := init_state; dout := [] |}.

(** ** The requests of a stretch of trace *)

Open Scope list_scope.

Fixpoint reqs_of (d : list event) : list request :=
  match d with
  | [] => []
  | EReq r :: d' => r :: reqs_of d'
  | _ :: d' => reqs_of d'
  end.

Definition post_req (cfg : config) (pair order_type : string) (volume price : Q) : request :=
  req_POST "postorder" (order_data cfg pair order_type volume price).

(** A [postorder] request that comes from a computed, strictly positive
    volume of a configured pair. *)
Definition post_guarded (cfg : config) (balances : pyval) (rq : request) : Prop :=
  rq_endpoint rq = "postorder" ->
  exists pair side order_type price volume,
    In pair (trading_pairs cfg) /\
    ((side = "BUY" /\ order_type = "BID") \/ (side = "ASK" /\ order_type = "ASK")) /\
    calculate_order_size cfg pair balances price side = Ok volume /\ (0 < volume)%Q /\
    rq = post_req cfg pair order_type volume price.


(** The requests of one iteration of the pair loop, in order. *)
Definition pair_step_reqs (cfg : config) (balances : pyval) (pair : string) (rs : list request) : Prop :=
  rs = [ticker_req pair] \/
  exists ticker prices oids bvs avs,
    py_truthy ticker = true /\ get_market_making_prices cfg ticker = Ok prices /\
    rs = ticker_req pair :: list_req (Some pair) :: map stop_req oids
         ++ map (fun v => post_req cfg pair "BID" v (p_bid prices)) bvs
         ++ map (fun v => post_req cfg pair "ASK" v (p_ask prices)) avs /\
    (List.length bvs <= 1)%nat /\ (List.length avs <= 1)%nat /\
    Forall (fun v => calculate_order_size cfg pair balances (p_bid prices) "BUY" = Ok v
                     /\ (0 < v)%Q) bvs /\
    Forall (fun v => calculate_order_size cfg pair balances (p_ask prices) "ASK" = Ok v
                     /\ (0 < v)%Q) avs.

Definition handler_msg (e : exn) : logmsg :=
  match e with KeyboardInterrupt => LStopped | _ => LUnexpected e end.

(** The state after [log m1; <request rq>; log m2; ...]. *)
Definition after (s : state) (d : list event) (requests : nat) : state :=
  {| trace := trace s ++ d; nreq := (requests + nreq s)%nat; nsleep := nsleep s |}.

(** Digit strings as produced by [z_to_dec], with their decimal value. *)

Definition is_digit (c : ascii) : bool :=
  match digit_value c with Some _ => true | None => false end.

Fixpoint all_digits (s : string) : bool :=
  match s with EmptyString => true | String c r => is_digit c && all_digits r end.

Fixpoint dval (s : string) : Z :=
  match s with
  | EmptyString => 0
  | String c r => match digit_value c with Some d => d | None => 0 end
                  * 10 ^ Z.of_nat (String.length r) + dval r
  end.

(** An entry of the bot's [active_orders] registry as [place_market_making_orders] records it. *)

Definition registry_entry (pairs : list string) (e : pyval * active_order) : Prop :=
  py_truthy (fst e) = true /\ In (ao_pair (snd e)) pairs /\
  (ao_type (snd e) = "BID" \/ ao_type (snd e) = "ASK") /\ (0 < ao_volume (snd e))%Q.

(** ** Printed output, requests and sleeps of the scripts *)

(** [m] only appends to the bot's trace, and every request it sends
    satisfies [P]. *)
Definition dsends (P : request -> Prop) {A} (m : DM A) : Prop :=
  forall s r s', m s = (r, s') ->
  exists d, trace (dbot s') = app (trace (dbot s)) d /\ Forall P (reqs_of d).

(** The requests test_bot.py may send: reads of balances, tickers, order
    books, and the unfiltered list of open orders. *)
Definition test_request (rq : request) : Prop :=
  rq_method rq = "GET" /\
  (rq = req_GET "accounts" [] \/
   (exists pair, rq = ticker_req pair \/ rq = req_GET "orderbook" [("pair", PStr pair)]) \/
   rq = req_GET "listorders" []).

(** The balances of the rows of the balance table among printed lines. *)
Fixpoint row_balances (out : list (nat * pline)) : list Q :=
  match out with
  | [] => []
  | (_, FLjust _ (FStr _) :: _ :: FLjust _ (FFixed b _) :: _) :: rest => b :: row_balances rest
  | _ :: rest => row_balances rest
  end.

Definition demo_reads : list request :=
  [req_GET "accounts" []; ticker_req "XBTZAR"; req_GET "orderbook" [("pair", PStr "XBTZAR")]].


Fixpoint sleeps_of (d : list event) : list Z :=
  match d with
  | [] => []
  | ESleep z :: d' => z :: sleeps_of d'
  | _ :: d' => sleeps_of d'
  end.

Definition not_sleep (e : event) : Prop :=
  match e with ESleep _ => False | _ => True end.

(** [m] only appends events satisfying [P] to the trace. *)
Definition writes (P : event -> Prop) {A} (m : M A) : Prop :=
  forall s r s', m s = (r, s') -> exists d, trace s' = trace s ++ d /\ Forall P d.

Definition all_args : test_args :=
  {| a_balances := false; a_market := None; a_orders := None; a_open_orders := false; a_all := true |}.


(** * Proofs *)

Lemma reqs_of_app (a b : list event) : reqs_of (a ++ b) = reqs_of a ++ reqs_of b.
Proof. induction a as [|[] a IH]; simpl; rewrite ?IH; reflexivity. Qed.

(** Runs a monadic program in hypothesis [H : m s = (r, s')]: the pure
    steps are computed, and every remaining case split (on the result of an
    opaque call such as [make_request], or on a test) is destructed with
    its equation. *)
Ltac norm H := unfold bind, log, emit, ret, lift, raise, time_time in H; cbv beta iota zeta in H.

Ltac crush_step H :=
  lazymatch type of H with
  | (match ?X with _ => _ end) = _ =>
      let E := fresh "E" in destruct X eqn:E; cbv beta iota zeta in H
  | (match ?X with _ => _ end) _ = _ =>
      let E := fresh "E" in destruct X eqn:E; cbv beta iota zeta in H
  end.

Ltac crush H := norm H; repeat crush_step H.

(** Closes [exists d, trace s' = trace s ++ d /\ ...] once every
    intermediate trace is known from a hypothesis [trace s1 = ...]. *)
Ltac rewrite_traces :=
  repeat match goal with
         | Ht : trace ?x = _ |- context [trace ?x] => rewrite Ht
         end.

Lemma make_request_trace (w : world) (rq : request) (s : state) (res : result pyval) (s' : state) :
  make_request w rq s = (res, s') ->
  exists d, trace s' = trace s ++ EReq rq :: d /\ reqs_of d = [].
Proof.
  unfold make_request, bind, send; simpl.
  destruct (gw w (nreq s) rq) as [st body| |]; simpl.
  - destruct (is_success st); simpl; intros H; injection H as <- <-; simpl.
    + exists []; split; [reflexivity|reflexivity].
    + exists [ELog (LApiError st)]; split; [|reflexivity].
      rewrite <- app_assoc; reflexivity.
  - intros H; injection H as <- <-; exists []; split; reflexivity.
  - intros H; injection H as <- <-; exists []; split; reflexivity.
Qed.

Lemma make_request_ok (w : world) (rq : request) (s s' : state) (r : result pyval) :
  make_request w rq s = (r, s') ->
  nreq s' = S (nreq s) /\
  (exists d, trace s' = trace s ++ EReq rq :: d /\ reqs_of d = []) /\
  (forall v, r = Ok v -> py_truthy v = true ->
     exists st, gw w (nreq s) rq = RHttp st v /\ is_success st = true).
Proof.
  intros H; split; [|split; [exact (make_request_trace _ _ _ _ _ H)|]].
  - unfold make_request, bind, send in H; simpl in H.
    destruct (gw w (nreq s) rq) as [st body| |]; simpl in H;
      [destruct (is_success st)|..]; simpl in H; injection H as _ <-; reflexivity.
  - intros v -> Hv; unfold make_request, bind, send in H; simpl in H.
    destruct (gw w (nreq s) rq) as [st body| |]; simpl in H; [|discriminate H..].
    destruct (is_success st) eqn:Es; simpl in H; injection H as Hb _; subst v; [|discriminate Hv].
    exists st; split; [reflexivity|exact Es].
Qed.

Lemma ret_run {A} (a : A) (s : state) : ret a s = (Ok a, s).
Proof. reflexivity. Qed.

Lemma log_run (m : logmsg) (s : state) :
  log m s = (Ok tt, {| trace := trace s ++ [ELog m]; nreq := nreq s; nsleep := nsleep s |}).
Proof. reflexivity. Qed.

Lemma cancel_order_trace (w : world) (oid : pyval) (s : state) (r : result bool) (s' : state) :
  cancel_order w oid s = (r, s') ->
  exists d, trace s' = trace s ++ d /\ reqs_of d = [stop_req oid].
Proof.
  unfold cancel_order; intros H; crush H; injection H as <- <-; simpl;
  apply make_request_trace in E as (d0 & Ht & Hr); rewrite_traces;
  eexists; (split; [rewrite <- ?app_assoc; reflexivity|]);
  rewrite ?reqs_of_app; simpl; rewrite ?Hr; reflexivity.
Qed.

Lemma cancel_listed_trace (w : world) (order : pyval) (s : state) (r : result unit) (s' : state) :
  cancel_listed w order s = (r, s') ->
  exists d, trace s' = trace s ++ d /\ exists oids, reqs_of d = map stop_req oids.
Proof.
  unfold cancel_listed; intros H; crush H; injection H as <- <-;
  try match goal with
      | E : cancel_order _ ?oid _ = _ |- _ =>
          apply cancel_order_trace in E as (d0 & Ht & Hr);
          exists d0; split; [exact Ht|exists [oid]; exact Hr]
      end.
  exists []; split; [rewrite app_nil_r; reflexivity|exists []; reflexivity].
Qed.

Lemma for_each_cancel_trace (w : world) (items : list pyval) (s : state) (r : result unit)
    (s' : state) :
  for_each (cancel_listed w) items s = (r, s') ->
  exists d, trace s' = trace s ++ d /\ exists oids, reqs_of d = map stop_req oids.
Proof.
  revert s; induction items as [|x items IH]; intros s H; simpl in H.
  - injection H as <- <-; exists []; split; [rewrite app_nil_r; reflexivity|exists []; reflexivity].
  - crush H;
    match goal with
    | E : cancel_listed _ _ _ = _ |- _ => apply cancel_listed_trace in E as (d1 & Ht1 & oids1 & Hr1)
    end.
    + apply IH in H as (d2 & Ht2 & oids2 & Hr2).
      exists (d1 ++ d2); split; [rewrite Ht2, Ht1, app_assoc; reflexivity|].
      exists (oids1 ++ oids2); rewrite reqs_of_app, Hr1, Hr2, map_app; reflexivity.
    + injection H as <- <-.
      exists d1; split; [exact Ht1|exists oids1; exact Hr1].
Qed.

Lemma cancel_all_orders_trace (w : world) (pair : option string) (s : state) (r : result unit)
    (s' : state) :
  cancel_all_orders w pair s = (r, s') ->
  exists d, trace s' = trace s ++ d /\
    exists oids, reqs_of d = list_req pair :: map stop_req oids.
Proof.
  unfold cancel_all_orders, get_open_orders; intros H; crush H;
    match goal with
    | E : make_request _ _ _ = _ |- _ => apply make_request_trace in E as (d0 & Ht0 & Hr0)
    end;
    try (apply for_each_cancel_trace in H as (d1 & Ht1 & oids & Hr1));
    try (injection H as <- <-);
    rewrite_traces;
    eexists; (split; [rewrite <- ?app_assoc; reflexivity|]);
    simpl; rewrite ?reqs_of_app, ?Hr0;
    solve [exists []; reflexivity | exists oids; rewrite Hr1; reflexivity].
Qed.

Lemma Qltb_true (x y : Q) : Qltb x y = true -> (x < y)%Q.
Proof.
  unfold Qltb; intros H; apply negb_true_iff in H.
  apply Qnot_le_lt; intros Hle; apply Qle_bool_iff in Hle; congruence.
Qed.

Lemma create_order_trace (w : world) (cfg : config) (pair order_type : string) (volume price : Q)
    (s : state) (r : result pyval) (s' : state) :
  create_order w cfg pair order_type volume price s = (r, s') ->
  exists d, trace s' = trace s ++ d /\ reqs_of d = [post_req cfg pair order_type volume price].
Proof.
  unfold create_order; intros H; crush H; injection H as <- <-; simpl;
  match goal with
  | E : make_request _ _ _ = _ |- _ => apply make_request_trace in E as (d0 & Ht & Hr)
  end;
  rewrite_traces;
  eexists; (split; [rewrite <- ?app_assoc; reflexivity|]);
  rewrite ?reqs_of_app; simpl; rewrite ?Hr; reflexivity.
Qed.

Lemma place_side_trace (w : world) (cfg : config) (pair : string) (balances : pyval)
    (price : Q) (side order_type : string) (active : active_orders)
    (s : state) (r : result active_orders) (s' : state) :
  place_side w cfg pair balances price side order_type active s = (r, s') ->
  exists d, trace s' = trace s ++ d /\
    exists vs, reqs_of d = map (fun v => post_req cfg pair order_type v price) vs /\
      (List.length vs <= 1)%nat /\
      Forall (fun v => calculate_order_size cfg pair balances price side = Ok v /\ (0 < v)%Q) vs.
Proof.
  unfold place_side; intros H; crush H; injection H as <- <-;
  try match goal with
      | E : create_order _ _ _ _ ?v _ _ = _ |- _ =>
          apply create_order_trace in E as (d0 & Ht & Hr);
          exists d0; split; [exact Ht|];
          exists [v]; split; [exact Hr|]; split; [simpl; lia|];
          constructor; [|constructor]; split; [first [reflexivity|assumption]|apply Qltb_true; assumption]
      end;
  (exists []; split; [rewrite app_nil_r; reflexivity|];
   exists []; split; [reflexivity|]; split; [simpl; lia|constructor]).
Qed.

Ltac trace_facts :=
  repeat match goal with
  | E : make_request _ _ _ = (_, _) |- _ =>
      apply make_request_trace in E as (?d & ?Ht & ?Hr)
  | E : cancel_all_orders _ _ _ = (_, _) |- _ =>
      apply cancel_all_orders_trace in E as (?d & ?Ht & ?oids & ?Hr)
  | E : place_side _ _ _ _ _ _ _ _ _ = (_, _) |- _ =>
      apply place_side_trace in E as (?d & ?Ht & ?vs & ?Hr & ?Hl & ?Hf)
  end.

Lemma process_pair_trace (w : world) (cfg : config) (balances : pyval) (pair : string)
    (active : active_orders) (s : state) (r : result active_orders) (s' : state) :
  process_pair w cfg balances pair active s = (r, s') ->
  exists d, trace s' = trace s ++ d /\ pair_step_reqs cfg balances pair (reqs_of d).
Proof.
  unfold process_pair, get_ticker; intros H; crush H; try (injection H as <- <-); trace_facts;
    cbn [trace] in *; rewrite_traces.
  all: eexists; (split; [rewrite <- ?app_assoc; reflexivity|]).
  all: unfold pair_step_reqs; rewrite ?reqs_of_app; simpl;
    repeat match goal with Hr : reqs_of ?d = _ |- context [reqs_of ?d] => rewrite Hr end;
    simpl; rewrite ?app_nil_r.
  all: first [left; reflexivity|right].
  all: let bl := match goal with
                 | Hf : Forall (fun v => calculate_order_size _ _ _ _ "BUY" = _ /\ _) ?l |- _ => l
                 | _ => constr:(@nil Q) end in
       let al := match goal with
                 | Hf : Forall (fun v => calculate_order_size _ _ _ _ "ASK" = _ /\ _) ?l |- _ => l
                 | _ => constr:(@nil Q) end in
       eexists _, _, _, bl, al.
  all: split; [apply negb_false_iff; eassumption|].
  all: split; [eassumption|].
  all: split; [simpl; rewrite ?app_nil_r; reflexivity|].
  all: repeat split; try assumption; simpl; try lia; constructor.
Qed.

Lemma pair_step_guarded (cfg : config) (balances : pyval) (pair : string) (rs : list request) :
  In pair (trading_pairs cfg) -> pair_step_reqs cfg balances pair rs ->
  Forall (post_guarded cfg balances) rs.
Proof.
  intros Hin [->|(ticker & pr & oids & bvs & avs & _ & _ & -> & _ & _ & Hb & Ha)].
  - constructor; [discriminate|constructor].
  - constructor; [discriminate|]; constructor; [discriminate|].
    apply Forall_app; split.
    { apply Forall_forall; intros rq Hrq; apply in_map_iff in Hrq as (oid & <- & _); discriminate. }
    apply Forall_app; split; apply Forall_forall; intros rq Hrq _;
      apply in_map_iff in Hrq as (v & <- & Hv).
    + apply (proj1 (Forall_forall _ _) Hb) in Hv as [Hc Hp].
      exists pair, "BUY", "BID", (p_bid pr), v; split; [exact Hin|split; [left; split; reflexivity|auto]].
    + apply (proj1 (Forall_forall _ _) Ha) in Hv as [Hc Hp].
      exists pair, "ASK", "ASK", (p_ask pr), v; split; [exact Hin|split; [right; split; reflexivity|auto]].
Qed.

Lemma process_pairs_guarded (w : world) (cfg : config) (balances : pyval) (pairs : list string) :
  incl pairs (trading_pairs cfg) ->
  forall active s r s',
  process_pairs w cfg balances pairs active s = (r, s') ->
  exists d, trace s' = trace s ++ d /\ Forall (post_guarded cfg balances) (reqs_of d).
Proof.
  induction pairs as [|p ps IH]; intros Hincl active s r s' H; simpl in H.
  - injection H as <- <-; exists []; split; [rewrite app_nil_r; reflexivity|constructor].
  - unfold bind in H.
    destruct (process_pair w cfg balances p active s) as [[a|e] s1] eqn:E;
      apply process_pair_trace in E as (d1 & Ht1 & Hr1);
      apply pair_step_guarded in Hr1; [|apply Hincl; left; reflexivity| |apply Hincl; left; reflexivity].
    + apply IH in H as (d2 & Ht2 & Hr2); [|intros x Hx; apply Hincl; right; exact Hx].
      exists (d1 ++ d2); split; [rewrite Ht2, Ht1, app_assoc; reflexivity|].
      rewrite reqs_of_app; apply Forall_app; split; assumption.
    + injection H as <- <-; exists d1; split; assumption.
Qed.

Lemma place_market_making_orders_guarded (w : world) (cfg : config) (s : state)
    (r : result (option active_orders)) (s' : state) :
  place_market_making_orders w cfg s = (r, s') ->
  exists d, trace s' = trace s ++ d /\
    forall rq, In rq (reqs_of d) -> rq_endpoint rq = "postorder" ->
      exists st balances, gw w (nreq s) (req_GET "accounts" []) = RHttp st balances /\
        is_success st = true /\ post_guarded cfg balances rq.
Proof.
  unfold place_market_making_orders, get_balances; intros H; crush H;
    match goal with
    | E : make_request _ _ _ = _ |- _ =>
        pose proof (make_request_ok _ _ _ _ _ E) as (_ & _ & Hok);
        apply make_request_trace in E as (d0 & Ht0 & Hr0)
    end;
    try (injection H as <- <-).
  all: try (apply process_pairs_guarded in E2 as (d1 & Ht1 & Hr1); [|intros x Hx; exact Hx]).
  all: try (apply process_pairs_guarded in H as (d1 & Ht1 & Hr1); [|intros x Hx; exact Hx]).
  all: cbn [trace nreq] in *; rewrite_traces.
  all: eexists; (split; [rewrite <- ?app_assoc; reflexivity|]).
  all: intros rq Hin Hep; rewrite ?reqs_of_app in Hin; simpl in Hin; rewrite ?Hr0 in Hin; simpl in Hin.
  all: try (destruct Hin as [<-|[]]; discriminate Hep).
  all: rewrite ?app_nil_r in Hin; destruct Hin as [<-|Hin]; [discriminate Hep|].
  all: match goal with
       | E1 : negb (py_truthy ?a) = false |- _ =>
           destruct (Hok a eq_refl (proj1 (negb_false_iff _) E1)) as (st & Hg & Hs)
       end.
  all: exists st, a; split; [exact Hg|split; [exact Hs|]].
  all: exact (proj1 (Forall_forall _ _) Hr1 rq Hin).
Qed.

(** C9 (corrected).  In a cycle, every [postorder] request the bot sends
    carries a volume that [calculate_order_size] computed for a configured
    pair from the balances the cycle fetched (the successful reply to its
    [accounts] request), with side [BUY] for a [BID] order and side [ASK]
    for an [ASK] order, and that volume is strictly positive: a side whose
    computed volume is zero or negative sends nothing.  The volume is sent
    formatted with [VOLUME_PRECISION] decimals. *)
Theorem cycle_orders_have_positive_volume (w : world) (cfg : config) (s : state)
    (r : result (option active_orders)) (s' : state) :
  place_market_making_orders w cfg s = (r, s') ->
  exists d, trace s' = trace s ++ d /\
    forall rq, In rq (reqs_of d) -> rq_endpoint rq = "postorder" ->
      exists st balances,
        gw w (nreq s) (req_GET "accounts" []) = RHttp st balances /\ is_success st = true /\
        exists pair side order_type price volume,
          In pair (trading_pairs cfg) /\
          ((side = "BUY" /\ order_type = "BID") \/ (side = "ASK" /\ order_type = "ASK")) /\
          calculate_order_size cfg pair balances price side = Ok volume /\ (0 < volume)%Q /\
          rq = req_POST "postorder"
                 [("pair", PStr pair); ("type", PStr order_type);
                  ("volume", PStr (format_fixed volume (volume_precision cfg)));
                  ("price", PStr (format_fixed price (price_precision cfg)));
                  ("post_only", PStr "true")].
Proof.
  intros H; apply place_market_making_orders_guarded in H as (d & Ht & Hf).
  exists d; split; [exact Ht|]; intros rq Hin Hep.
  destruct (Hf rq Hin Hep) as (st & balances & Hg & Hs & Hp).
  exists st, balances; split; [exact Hg|split; [exact Hs|exact (Hp Hep)]].
Qed.

Lemma cycle_orders_have_positive_volume_witness :
  exists d, trace (snd (place_market_making_orders small_world default_config init_state))
            = trace init_state ++ d /\
    forall rq, In rq (reqs_of d) -> rq_endpoint rq = "postorder" ->
      exists st balances,
        gw small_world (nreq init_state) (req_GET "accounts" []) = RHttp st balances /\
        is_success st = true /\
        exists pair side order_type price volume,
          In pair (trading_pairs default_config) /\
          ((side = "BUY" /\ order_type = "BID") \/ (side = "ASK" /\ order_type = "ASK")) /\
          calculate_order_size default_config pair balances price side = Ok volume /\
          (0 < volume)%Q /\
          rq = req_POST "postorder"
                 [("pair", PStr pair); ("type", PStr order_type);
                  ("volume", PStr (format_fixed volume (volume_precision default_config)));
                  ("price", PStr (format_fixed price (price_precision default_config)));
                  ("post_only", PStr "true")].
Proof.
  apply (cycle_orders_have_positive_volume small_world default_config init_state
           (fst (place_market_making_orders small_world default_config init_state))
           (snd (place_market_making_orders small_world default_config init_state))).
  vm_compute; reflexivity.
Defined.

(** C9, counterexample.  With one rand available, the XBTZAR buy volume
    (1 * 2 / 100) / 995995 is positive, so a [postorder] request is sent,
    but its volume field reads [0.000000]: an order of volume zero. *)
Lemma small_positive_volume_sent_as_zero :
  calculate_order_size default_config "XBTZAR" (PList [acct "ZAR" "1" "0"]) 995995 "BUY"
    = Ok ((1 - 0) * 2.0 / 100 / 995995)%Q /\
  nth_error (reqs_of (trace (snd (place_market_making_orders small_world default_config init_state)))) 3
    = Some (req_POST "postorder"
              [("pair", PStr "XBTZAR"); ("type", PStr "BID"); ("volume", PStr "0.000000");
               ("price", PStr "995995"); ("post_only", PStr "true")]) /\
  match float_of_string "0.000000" with Some q => (q == 0)%Q | None => False end.
Proof. split; [|split]; vm_compute; reflexivity. Qed.

Lemma make_request_success (w : world) (rq : request) (s s' : state) (r : result pyval)
    (st : Z) (v : pyval) :
  make_request w rq s = (r, s') -> gw w (nreq s) rq = RHttp st v -> is_success st = true -> r = Ok v.
Proof.
  unfold make_request, bind, send; simpl; intros H Hg Hs; rewrite Hg in H; simpl in H; rewrite Hs in H.
  injection H as <- _; reflexivity.
Qed.

(** C2 (corrected).  The requests one pair's iteration sends, in order,
    where [ticker] is the gateway's reply to the iteration's ticker
    request: the ticker request alone when no quote pair is computed from
    that reply (a failed request, a falsy ticker, or a successful truthy
    ticker whose quotes raise); otherwise, when the request succeeds with
    a truthy ticker whose quote pair computes, the listing of the pair's
    open orders and a cancel per listed order, then at most one buy order
    sized and priced at the bid quote, then at most one sell order at the
    ask quote.  Cancellation comes after the ticker fetch and the quote
    computation. *)
Theorem pair_iteration_request_order (w : world) (cfg : config) (balances : pyval) (pair : string)
    (active : active_orders) (s : state) (r : result active_orders) (s' : state) :
  process_pair w cfg balances pair active s = (r, s') ->
  exists d, trace s' = trace s ++ d /\
    ((reqs_of d = [ticker_req pair] /\
      forall st ticker, gw w (nreq s) (ticker_req pair) = RHttp st ticker -> is_success st = true ->
        py_truthy ticker = true -> exists e, get_market_making_prices cfg ticker = Exc e) \/
     exists st ticker prices oids bvs avs,
       gw w (nreq s) (ticker_req pair) = RHttp st ticker /\ is_success st = true /\
       py_truthy ticker = true /\ get_market_making_prices cfg ticker = Ok prices /\
       reqs_of d = ticker_req pair :: list_req (Some pair) :: map stop_req oids
                   ++ map (fun v => post_req cfg pair "BID" v (p_bid prices)) bvs
                   ++ map (fun v => post_req cfg pair "ASK" v (p_ask prices)) avs /\
       (List.length bvs <= 1)%nat /\ (List.length avs <= 1)%nat /\
       Forall (fun v => calculate_order_size cfg pair balances (p_bid prices) "BUY" = Ok v
                        /\ (0 < v)%Q) bvs /\
       Forall (fun v => calculate_order_size cfg pair balances (p_ask prices) "ASK" = Ok v
                        /\ (0 < v)%Q) avs).
Proof.
  unfold process_pair, get_ticker; intros H; crush H.
  all: match goal with
       | E : make_request _ (ticker_req _) _ = _ |- _ =>
           pose proof (fun (st : Z) (v : pyval) => make_request_success _ _ _ _ _ st v E) as Hsucc;
           pose proof (make_request_ok _ _ _ _ _ E) as (_ & _ & Hok); cbn [nreq] in Hok, Hsucc
       end.
  all: try (injection H as <- <-); trace_facts; cbn [trace] in *; rewrite_traces.
  all: eexists; (split; [rewrite <- ?app_assoc; reflexivity|]).
  all: rewrite ?reqs_of_app; simpl;
    repeat match goal with Hr : reqs_of ?d = _ |- context [reqs_of ?d] => rewrite Hr end;
    simpl; rewrite ?app_nil_r.
  all: first
    [ left; split; [reflexivity|];
      intros st0 t0 Hg0 Hs0 Htr0; specialize (Hsucc st0 t0 Hg0 Hs0);
      first [ discriminate Hsucc
            | injection Hsucc as <-
            | match goal with E0 : ?x = _, Hsucc : ?x = _ |- _ => rewrite E0 in Hsucc end;
              first [ discriminate Hsucc | injection Hsucc as <- ] ];
      first [ match goal with E1 : negb _ = true |- _ => rewrite Htr0 in E1; discriminate E1 end
            | eexists; eassumption ]
    | right ].
  all: match goal with
       | E1 : negb (py_truthy ?a) = false |- _ =>
           destruct (Hok a eq_refl (proj1 (negb_false_iff _) E1)) as (st & Hg & Hs)
       end.
  all: let bl := match goal with
                 | Hf : Forall (fun v => calculate_order_size _ _ _ _ "BUY" = _ /\ _) ?l |- _ => l
                 | _ => constr:(@nil Q) end in
       let al := match goal with
                 | Hf : Forall (fun v => calculate_order_size _ _ _ _ "ASK" = _ /\ _) ?l |- _ => l
                 | _ => constr:(@nil Q) end in
       eexists st, _, _, _, bl, al.
  all: split; [exact Hg|]; split; [exact Hs|].
  all: split; [apply negb_false_iff; eassumption|].
  all: split; [eassumption|].
  all: split; [simpl; rewrite ?app_nil_r; reflexivity|].
  all: repeat split; try assumption; simpl; try lia; constructor.
Qed.

Lemma pair_iteration_request_order_witness :
  exists d, trace (snd (process_pair demo_world default_config demo_accounts "XBTZAR" [] init_state)) = trace init_state ++ d /\
    ((reqs_of d = [ticker_req "XBTZAR"] /\
      forall st ticker, gw demo_world (nreq init_state) (ticker_req "XBTZAR") = RHttp st ticker -> is_success st = true ->
        py_truthy ticker = true -> exists e, get_market_making_prices default_config ticker = Exc e) \/
     exists st ticker prices oids bvs avs,
       gw demo_world (nreq init_state) (ticker_req "XBTZAR") = RHttp st ticker /\ is_success st = true /\
       py_truthy ticker = true /\ get_market_making_prices default_config ticker = Ok prices /\
       reqs_of d = ticker_req "XBTZAR" :: list_req (Some "XBTZAR") :: map stop_req oids
                   ++ map (fun v => post_req default_config "XBTZAR" "BID" v (p_bid prices)) bvs
                   ++ map (fun v => post_req default_config "XBTZAR" "ASK" v (p_ask prices)) avs /\
       (List.length bvs <= 1)%nat /\ (List.length avs <= 1)%nat /\
       Forall (fun v => calculate_order_size default_config "XBTZAR" demo_accounts (p_bid prices) "BUY" = Ok v
                        /\ (0 < v)%Q) bvs /\
       Forall (fun v => calculate_order_size default_config "XBTZAR" demo_accounts (p_ask prices) "ASK" = Ok v
                        /\ (0 < v)%Q) avs).
Proof.
  apply (pair_iteration_request_order demo_world default_config demo_accounts "XBTZAR" [] init_state
           (fst (process_pair demo_world default_config demo_accounts "XBTZAR" [] init_state))
           (snd (process_pair demo_world default_config demo_accounts "XBTZAR" [] init_state))).
  vm_compute; reflexivity.
Defined.

(** C2, counterexample.  On the first pair of a cycle the ticker request is
    sent before the listing of that pair's open orders, not after it. *)
Lemma ticker_fetched_before_cancel :
  firstn 3 (reqs_of (trace (snd (place_market_making_orders demo_world default_config init_state))))
  = [req_GET "accounts" []; ticker_req "XBTZAR"; list_req (Some "XBTZAR")].
Proof. vm_compute; reflexivity. Qed.

Lemma main_on_loop_exception (w : world) (cfg : config) (fuel : nat) (s : state) (e : exn)
    (s1 : state) :
  run_loop w cfg fuel (snd (log LStarting s)) = (Exc e, s1) ->
  main w cfg true fuel s = (log (handler_msg e) ;; cancel_all_orders w None) s1.
Proof.
  intros H; unfold main, try_except, bind at 1; rewrite log_run; simpl.
  simpl in H; rewrite H; destruct e; reflexivity.
Qed.

(** C8 (confirmed).  When the run loop ends with an exception, a Ctrl-C
    ([KeyboardInterrupt]) or any other error, [main] logs it and calls
    [cancel_all_orders()] with no pair: its first request lists the open
    orders of every pair, and each further request cancels a listed order. *)
Theorem main_cancels_everything_on_exit (w : world) (cfg : config) (fuel : nat) (s : state)
    (e : exn) (s1 : state) :
  run_loop w cfg fuel (snd (log LStarting s)) = (Exc e, s1) ->
  main w cfg true fuel s = (log (handler_msg e) ;; cancel_all_orders w None) s1 /\
  forall r s2, main w cfg true fuel s = (r, s2) ->
    exists d, trace s2 = trace s1 ++ ELog (handler_msg e) :: d /\
      exists oids, reqs_of d = req_GET "listorders" [] :: map stop_req oids.
Proof.
  intros H; apply main_on_loop_exception in H as Hm; split; [exact Hm|].
  intros r s2 Hr; rewrite Hm in Hr.
  unfold bind at 1 in Hr; rewrite log_run in Hr; cbv beta iota in Hr.
  apply cancel_all_orders_trace in Hr as (d & Ht & oids & Hq).
  exists d; split; [rewrite Ht; simpl; rewrite <- app_assoc; reflexivity|].
  exists oids; exact Hq.
Qed.

Lemma main_cancels_everything_on_exit_witness :
  let s1 := snd (run_loop demo_world default_config 1 (snd (log LStarting init_state))) in
  run_loop demo_world default_config 1 (snd (log LStarting init_state)) = (Exc ZeroDivisionError, s1) /\
  (main demo_world default_config true 1 init_state
     = (log (handler_msg ZeroDivisionError) ;; cancel_all_orders demo_world None) s1 /\
   forall r s2, main demo_world default_config true 1 init_state = (r, s2) ->
    exists d, trace s2 = trace s1 ++ ELog (handler_msg ZeroDivisionError) :: d /\
      exists oids, reqs_of d = req_GET "listorders" [] :: map stop_req oids).
Proof.
  intros s1.
  assert (H : run_loop demo_world default_config 1 (snd (log LStarting init_state))
              = (Exc ZeroDivisionError, s1)) by (vm_compute; reflexivity).
  split; [exact H|].
  exact (main_cancels_everything_on_exit demo_world default_config 1 init_state
           ZeroDivisionError s1 H).
Defined.

Ltac run_ticker Hg :=
  simpl; unfold process_pair, get_ticker, make_request, send, bind, log, emit, ret, raise, lift;
  simpl; rewrite Hg; simpl.



Lemma process_pairs_bad_ticker (w : world) (cfg : config) (balances : pyval)
    (pair : string) (rest : list string) (active : active_orders) (s : state)
    (status : Z) (ticker : pyval) (e : exn) :
  gw w (nreq s) (ticker_req pair) = RHttp status ticker -> is_success status = true ->
  py_truthy ticker = true -> get_market_making_prices cfg ticker = Exc e ->
  process_pairs w cfg balances (pair :: rest) active s =
  (Exc e, after s [ELog (LProcessingPair pair); EReq (ticker_req pair)] 1).
Proof.
  intros Hg Hs Ht Hp; run_ticker Hg; rewrite Hs; simpl; rewrite Ht; simpl; rewrite Hp.
  unfold after; simpl; rewrite <- !app_assoc; reflexivity.
Qed.




Lemma py_float_errors (v : pyval) (e : exn) :
  py_float v = Exc e <->
  (e = ValueError /\ exists str, v = PStr str /\ float_of_string str = None) \/
  (e = TypeError /\ (v = PNone \/ (exists l, v = PList l) \/ (exists kvs, v = PDict kvs))).
Proof.
  split.
  - destruct v as [|b|q|str|l|kvs]; simpl; intros H; try discriminate H.
    + right; split; [injection H as <-; reflexivity|left; reflexivity].
    + left; destruct (float_of_string str) eqn:E; [discriminate H|].
      injection H as <-; split; [reflexivity|exists str; split; [reflexivity|exact E]].
    + right; injection H as <-; split; [reflexivity|right; left; eexists; reflexivity].
    + right; injection H as <-; split; [reflexivity|right; right; eexists; reflexivity].
  - intros [(-> & str & -> & E)|(-> & [->|[(l & ->)|(kvs & ->)]])]; simpl; [rewrite E|..]; reflexivity.
Qed.

(** C3 (corrected).  A ticker without a numeric [bid] or [ask] makes
    [get_market_making_prices] raise: [KeyError] when the field is missing,
    and otherwise the error of [float()] on it, which is [ValueError] for a
    string that does not parse as a number and [TypeError] for [null], a
    list or a dict.  Nothing in the pair loop catches it: the pair's orders
    are not cancelled, the remaining pairs of the cycle are not processed,
    and [main]'s catch-all logs the error and cancels all orders, which ends
    the process. *)
Theorem invalid_ticker_aborts_cycle (w : world) (cfg : config) (balances : pyval)
    (pair : string) (rest : list string) (active : active_orders) (s : state)
    (status : Z) (ticker : pyval) (e : exn)
    (Hg : gw w (nreq s) (ticker_req pair) = RHttp status ticker)
    (Hs : is_success status = true) (Ht : py_truthy ticker = true)
    (Hp : get_market_making_prices cfg ticker = Exc e) :
  process_pairs w cfg balances (pair :: rest) active s =
  (Exc e, after s [ELog (LProcessingPair pair); EReq (ticker_req pair)] 1) /\
  (forall kvs, assoc_lookup "bid" kvs = None ->
   get_market_making_prices cfg (PDict kvs) = Exc KeyError) /\
  (forall kvs bv e', assoc_lookup "bid" kvs = Some bv -> py_float bv = Exc e' ->
   get_market_making_prices cfg (PDict kvs) = Exc e') /\
  (forall kvs bv b, assoc_lookup "bid" kvs = Some bv -> py_float bv = Ok b ->
   assoc_lookup "ask" kvs = None -> get_market_making_prices cfg (PDict kvs) = Exc KeyError) /\
  (forall kvs bv b av e', assoc_lookup "bid" kvs = Some bv -> py_float bv = Ok b ->
   assoc_lookup "ask" kvs = Some av -> py_float av = Exc e' ->
   get_market_making_prices cfg (PDict kvs) = Exc e') /\
  (forall v e', py_float v = Exc e' <->
   (e' = ValueError /\ exists str, v = PStr str /\ float_of_string str = None) \/
   (e' = TypeError /\ (v = PNone \/ (exists l, v = PList l) \/ (exists kvs, v = PDict kvs)))) /\
  (forall fuel s0 s1, is_Exception e = true ->
   run_loop w cfg fuel (snd (log LStarting s0)) = (Exc e, s1) ->
   main w cfg true fuel s0 = (log (LUnexpected e) ;; cancel_all_orders w None) s1).
Proof.
  split; [exact (process_pairs_bad_ticker w cfg balances pair rest active s status ticker e Hg Hs Ht Hp)|].
  unfold get_market_making_prices; simpl.
  split; [intros kvs H; rewrite H; reflexivity|].
  split; [intros kvs bv e' H Hf; rewrite H; simpl; rewrite Hf; reflexivity|].
  split; [intros kvs bv b H Hf Ha; rewrite H; simpl; rewrite Hf; simpl; rewrite Ha; reflexivity|].
  split; [intros kvs bv b av e' H Hf Ha Hfa; rewrite H; simpl; rewrite Hf; simpl; rewrite Ha; simpl;
          rewrite Hfa; reflexivity|].
  split; [exact py_float_errors|].
  intros fuel s0 s1 He Hl; rewrite (main_on_loop_exception w cfg fuel s0 e s1 Hl).
  destruct e; try discriminate; reflexivity.
Qed.

Lemma invalid_ticker_aborts_cycle_witness :
  gw nobid_world (nreq init_state) (ticker_req "XBTZAR") = RHttp 200 (PDict [("ask", PStr "1002000")]) /\
  is_success 200 = true /\ py_truthy (PDict [("ask", PStr "1002000")]) = true /\
  get_market_making_prices default_config (PDict [("ask", PStr "1002000")]) = Exc KeyError /\
  process_pairs nobid_world default_config demo_accounts TRADING_PAIRS [] init_state =
  (Exc KeyError, after init_state [ELog (LProcessingPair "XBTZAR"); EReq (ticker_req "XBTZAR")] 1).
Proof.
  assert (Hg : gw nobid_world (nreq init_state) (ticker_req "XBTZAR")
               = RHttp 200 (PDict [("ask", PStr "1002000")])) by reflexivity.
  assert (Hs : is_success 200 = true) by reflexivity.
  assert (Ht : py_truthy (PDict [("ask", PStr "1002000")]) = true) by reflexivity.
  assert (Hp : get_market_making_prices default_config (PDict [("ask", PStr "1002000")])
               = Exc KeyError) by reflexivity.
  do 4 (split; [assumption|]).
  exact (proj1 (invalid_ticker_aborts_cycle nobid_world default_config demo_accounts "XBTZAR"
                  ["ETHZAR"; "XRPZAR"; "ETHXBT"; "USDCZAR"] [] init_state 200
                  (PDict [("ask", PStr "1002000")]) KeyError Hg Hs Ht Hp)).
Defined.

(** C3, counterexample.  A ticker without [bid] for the first pair ends the
    cycle with [KeyError]: no other pair's ticker is even requested. *)
Lemma missing_bid_aborts_cycle :
  fst (place_market_making_orders nobid_world default_config init_state) = Exc KeyError /\
  reqs_of (trace (snd (place_market_making_orders nobid_world default_config init_state)))
  = [req_GET "accounts" []; ticker_req "XBTZAR"].
Proof. split; vm_compute; reflexivity. Qed.










(** ** Quote calculator and order sizer *)

Lemma round_half_even_range (x : Q) :
  Qfloor x <= round_half_even x <= Qfloor x + 1.
Proof.
  unfold round_half_even.
  destruct (Qcompare _ _); [destruct (Z.even _)|..]; lia.
Qed.

Lemma round_half_even_bound (x : Q) :
  (x - (1#2) <= inject_Z (round_half_even x) <= x + (1#2))%Q.
Proof.
  pose proof (Qfloor_le x) as H1; pose proof (Qlt_floor x) as H2.
  unfold round_half_even.
  rewrite inject_Z_plus in H2; set (f := Qfloor x) in *.
  destruct (Qcompare_spec (x - inject_Z f) (1#2)) as [E|L|G];
    [destruct (Z.even f)|..]; rewrite ?inject_Z_plus; change (inject_Z 1) with (1#1) in *; lra.
Qed.

Lemma round_half_even_compat (x y : Q) :
  (x == y)%Q -> round_half_even x = round_half_even y.
Proof.
  intros H; unfold round_half_even.
  assert (Hf : Qfloor x = Qfloor y).
  { apply Z.le_antisymm; apply Qfloor_resp_le; rewrite H; apply Qle_refl. }
  rewrite Hf, H; reflexivity.
Qed.

Lemma round_half_even_mono (x y : Q) :
  (x <= y)%Q -> round_half_even x <= round_half_even y.
Proof.
  intros H.
  pose proof (Qfloor_resp_le x y H) as Hf.
  pose proof (round_half_even_range x) as Rx; pose proof (round_half_even_range y) as Ry.
  destruct (Z.eq_dec (Qfloor x) (Qfloor y)) as [E|NE]; [|lia].
  unfold round_half_even; rewrite <- E; set (f := Qfloor x).
  destruct (Qcompare_spec (x - inject_Z f) (1#2)) as [Ex|Lx|Gx];
  destruct (Qcompare_spec (y - inject_Z f) (1#2)) as [Ey|Ly|Gy];
  try (destruct (Z.even f)); try lia; exfalso; lra.
Qed.

Lemma pow10_pos (n : nat) : (0 < inject_Z (pow10 n))%Q.
Proof.
  unfold pow10, Qlt; simpl. rewrite Z.mul_1_r. apply Z.pow_pos_nonneg; lia.
Qed.

Lemma py_round_compat (x y : Q) (n : nat) :
  (x == y)%Q -> py_round x n = py_round y n.
Proof.
  intros H; unfold py_round; rewrite (round_half_even_compat _ (y * inject_Z (pow10 n))); [reflexivity|].
  rewrite H; reflexivity.
Qed.

Lemma py_round_bound (x : Q) (n : nat) :
  (x - (1#2) / inject_Z (pow10 n) <= py_round x n <= x + (1#2) / inject_Z (pow10 n))%Q.
Proof.
  pose proof (pow10_pos n) as HP; unfold py_round.
  set (P := inject_Z (pow10 n)) in *.
  destruct (round_half_even_bound (x * P)) as [Hl Hu].
  set (r := inject_Z (round_half_even (x * P))) in *.
  split.
  - apply Qle_shift_div_l; [exact HP|].
    setoid_replace ((x - (1#2) / P) * P)%Q with (x * P - (1#2))%Q; [exact Hl|].
    field; intros E; rewrite E in HP; discriminate.
  - apply Qle_shift_div_r; [exact HP|].
    setoid_replace ((x + (1#2) / P) * P)%Q with (x * P + (1#2))%Q; [exact Hu|].
    field; intros E; rewrite E in HP; discriminate.
Qed.

Lemma py_round_mono (x y : Q) (n : nat) :
  (x <= y)%Q -> (py_round x n <= py_round y n)%Q.
Proof.
  intros H; pose proof (pow10_pos n) as HP; unfold py_round.
  apply Qmult_le_compat_r; [|apply Qinv_le_0_compat, Qlt_le_weak, HP].
  rewrite <- Zle_Qle; apply round_half_even_mono.
  apply Qmult_le_compat_r; [exact H|apply Qlt_le_weak, HP].
Qed.

Lemma get_market_making_prices_eq (cfg : config) (ticker bv av : pyval) (bid ask : Q) :
  py_getitem ticker "bid" = Ok bv -> py_float bv = Ok bid ->
  py_getitem ticker "ask" = Ok av -> py_float av = Ok ask ->
  get_market_making_prices cfg ticker =
  Ok {| p_bid := py_round ((bid + ask) / 2 - (bid + ask) / 2 * spread_percentage cfg / 100)
                   (price_precision cfg);
        p_ask := py_round ((bid + ask) / 2 + (bid + ask) / 2 * spread_percentage cfg / 100)
                   (price_precision cfg) |}.
Proof.
  intros Hb Hbf Ha Haf; unfold get_market_making_prices.
  rewrite Hb; simpl; rewrite Hbf; simpl; rewrite Ha; simpl; rewrite Haf; reflexivity.
Qed.

(** C4 (confirmed).  For numeric [bid] and [ask], [get_market_making_prices]
    returns [round(mid - half_spread, price_precision)] and
    [round(mid + half_spread, price_precision)] with [mid = (bid + ask) / 2]
    and [half_spread = mid * (spread_percentage / 100)]; on the ticker
    1000000 / 1002000 with the default configuration the quotes are 995995
    and 1006005. *)
Theorem quote_formula (cfg : config) (ticker bv av : pyval) (bid ask : Q)
    (Hb : py_getitem ticker "bid" = Ok bv) (Hbf : py_float bv = Ok bid)
    (Ha : py_getitem ticker "ask" = Ok av) (Haf : py_float av = Ok ask) :
  let mid := ((bid + ask) / 2)%Q in
  let half_spread := (mid * (spread_percentage cfg / 100))%Q in
  get_market_making_prices cfg ticker =
  Ok {| p_bid := py_round (mid - half_spread) (price_precision cfg);
        p_ask := py_round (mid + half_spread) (price_precision cfg) |} /\
  get_market_making_prices default_config
    (PDict [("bid", PStr "1000000"); ("ask", PStr "1002000")])
  = Ok {| p_bid := 995995; p_ask := 1006005 |}.
Proof.
  intros mid half_spread; split; [|vm_compute; reflexivity].
  rewrite (get_market_making_prices_eq cfg ticker bv av bid ask Hb Hbf Ha Haf).
  subst mid half_spread.
  rewrite (py_round_compat ((bid + ask) / 2 - (bid + ask) / 2 * spread_percentage cfg / 100)
             ((bid + ask) / 2 - (bid + ask) / 2 * (spread_percentage cfg / 100))) by (field; discriminate).
  rewrite (py_round_compat ((bid + ask) / 2 + (bid + ask) / 2 * spread_percentage cfg / 100)
             ((bid + ask) / 2 + (bid + ask) / 2 * (spread_percentage cfg / 100))) by (field; discriminate).
  reflexivity.
Qed.

Lemma quote_formula_witness :
  let mid := ((1000000 + 1002000) / 2)%Q in
  let half_spread := (mid * (spread_percentage default_config / 100))%Q in
  get_market_making_prices default_config (demo_ticker "XBTZAR") =
  Ok {| p_bid := py_round (mid - half_spread) (price_precision default_config);
        p_ask := py_round (mid + half_spread) (price_precision default_config) |} /\
  get_market_making_prices default_config
    (PDict [("bid", PStr "1000000"); ("ask", PStr "1002000")])
  = Ok {| p_bid := 995995; p_ask := 1006005 |}.
Proof.
  exact (quote_formula default_config (demo_ticker "XBTZAR") (PStr "1000000") (PStr "1002000")
           1000000 1002000 eq_refl eq_refl eq_refl eq_refl).
Defined.

(** C1 (corrected).  The code offsets each quote by [h = mid * spread / 100]
    on either side of [mid], so the quote width is about [2 * h], not [h];
    and rounding moves each quote by up to [e = 0.5 / 10 ^ price_precision],
    so the quotes need not bracket [mid].  For [0 <= bid <= ask] and a
    non-negative spread: [bid_quote <= ask_quote], each quote lies within
    [e] of [mid - h] resp. [mid + h], and the width lies within [2 * e] of
    [2 * h]. *)
Theorem quote_pair_bounds (cfg : config) (ticker bv av : pyval) (bid ask : Q)
    (Hb : py_getitem ticker "bid" = Ok bv) (Hbf : py_float bv = Ok bid)
    (Ha : py_getitem ticker "ask" = Ok av) (Haf : py_float av = Ok ask)
    (H0 : (0 <= bid)%Q) (Hle : (bid <= ask)%Q) (Hsp : (0 <= spread_percentage cfg)%Q) :
  let mid := ((bid + ask) / 2)%Q in
  let h := (mid * spread_percentage cfg / 100)%Q in
  let e := ((1#2) / inject_Z (pow10 (price_precision cfg)))%Q in
  exists pr, get_market_making_prices cfg ticker = Ok pr /\
    (p_bid pr <= p_ask pr)%Q /\
    (mid - h - e <= p_bid pr <= mid - h + e)%Q /\
    (mid + h - e <= p_ask pr <= mid + h + e)%Q /\
    (2 * h - 2 * e <= p_ask pr - p_bid pr <= 2 * h + 2 * e)%Q.
Proof.
  intros mid h e.
  rewrite (get_market_making_prices_eq cfg ticker bv av bid ask Hb Hbf Ha Haf).
  eexists; split; [reflexivity|]; cbn [p_bid p_ask]; fold mid h.
  assert (Hh : (0 <= h)%Q).
  { assert (Hm : (0 <= mid)%Q) by (subst mid; apply Qle_shift_div_l; [reflexivity|]; lra).
    subst h; apply Qle_shift_div_l; [reflexivity|].
    rewrite Qmult_0_l; apply Qmult_le_0_compat; assumption. }
  pose proof (py_round_bound (mid - h) (price_precision cfg)) as Bb.
  pose proof (py_round_bound (mid + h) (price_precision cfg)) as Ba.
  fold e in Bb, Ba.
  split; [apply py_round_mono; lra|].
  split; [exact Bb|]; split; [exact Ba|]; lra.
Qed.

Lemma quote_pair_bounds_witness :
  let mid := ((1000000 + 1002000) / 2)%Q in
  let h := (mid * spread_percentage default_config / 100)%Q in
  let e := ((1#2) / inject_Z (pow10 (price_precision default_config)))%Q in
  exists pr, get_market_making_prices default_config (demo_ticker "XBTZAR") = Ok pr /\
    (p_bid pr <= p_ask pr)%Q /\
    (mid - h - e <= p_bid pr <= mid - h + e)%Q /\
    (mid + h - e <= p_ask pr <= mid + h + e)%Q /\
    (2 * h - 2 * e <= p_ask pr - p_bid pr <= 2 * h + 2 * e)%Q.
Proof.
  apply (quote_pair_bounds default_config (demo_ticker "XBTZAR") (PStr "1000000") (PStr "1002000"));
    try reflexivity; vm_compute; discriminate.
Defined.

(** C1, counterexample.  On 1000000 / 1002000 the quote width is 10010
    while [mid * spread / 100] is 5005; on 1 / 1.4 both quotes round to 1,
    below [mid = 1.2]. *)
Lemma quote_width_twice_spread_and_rounding :
  get_market_making_prices default_config
    (PDict [("bid", PStr "1000000"); ("ask", PStr "1002000")])
  = Ok {| p_bid := 995995; p_ask := 1006005 |} /\
  (1006005 - 995995 == 10010)%Q /\
  (((1000000 + 1002000) / 2) * SPREAD_PERCENTAGE / 100 == 5005)%Q /\
  get_market_making_prices default_config (PDict [("bid", PStr "1"); ("ask", PStr "1.4")])
  = Ok {| p_bid := 1; p_ask := 1 |} /\
  (1 < (1 + 1.4) / 2)%Q.
Proof. vm_compute; repeat split; reflexivity. Qed.

Lemma substring_0_length (s : string) : substring 0 (String.length s) s = s.
Proof. induction s as [|c s IH]; simpl; [reflexivity|rewrite IH; reflexivity]. Qed.

(** C5 (confirmed).  For a positive price, a BUY is sized
    [(available quote * size% / 100) / price] and any other side
    [available base * size% / 100], the base asset being the first three
    characters of the pair and the quote asset the rest; the XBT balance of
    0.05 gives a sell volume of 0.001. *)
Theorem order_size_formula (cfg : config) (pair : string) (balances : pyval) (price : Q)
    (side : string) (Hp : (0 < price)%Q) :
  (forall ab, side = "BUY" -> get_asset_balance balances (quote_asset_of pair) = Ok ab ->
     calculate_order_size cfg pair balances price side
     = Ok (ab_available ab * order_size_percentage cfg / 100 / price)%Q) /\
  (forall ab, side <> "BUY" -> get_asset_balance balances (base_asset_of pair) = Ok ab ->
     calculate_order_size cfg pair balances price side
     = Ok (ab_available ab * order_size_percentage cfg / 100)%Q) /\
  (forall a b c rest, pair = String a (String b (String c rest)) ->
     base_asset_of pair = String a (String b (String c EmptyString)) /\ quote_asset_of pair = rest) /\
  (match calculate_order_size default_config "XBTZAR" demo_accounts price "SELL" with
   | Ok v => v == 0.001 | Exc _ => False end)%Q.
Proof.
  split; [|split; [|split]].
  - intros ab -> Hab; unfold calculate_order_size; simpl; rewrite Hab; simpl.
    unfold py_div; destruct (Qeq_bool price 0) eqn:E; [|reflexivity].
    apply Qeq_bool_eq in E; rewrite E in Hp; discriminate.
  - intros ab Hs Hab; unfold calculate_order_size.
    destruct (String.eqb_spec side "BUY") as [E|_]; [contradiction|].
    rewrite Hab; reflexivity.
  - intros a b c rest ->; split; [destruct rest; reflexivity|].
    unfold quote_asset_of; simpl; rewrite Nat.sub_0_r; apply substring_0_length.
  - vm_compute; reflexivity.
Qed.

Lemma order_size_formula_witness :
  (forall ab, "BUY" = "BUY" -> get_asset_balance demo_accounts (quote_asset_of "XBTZAR") = Ok ab ->
     calculate_order_size default_config "XBTZAR" demo_accounts 995995 "BUY"
     = Ok (ab_available ab * order_size_percentage default_config / 100 / 995995)%Q) /\
  (forall ab, "BUY" <> "BUY" -> get_asset_balance demo_accounts (base_asset_of "XBTZAR") = Ok ab ->
     calculate_order_size default_config "XBTZAR" demo_accounts 995995 "BUY"
     = Ok (ab_available ab * order_size_percentage default_config / 100)%Q) /\
  (forall a b c rest, "XBTZAR" = String a (String b (String c rest)) ->
     base_asset_of "XBTZAR" = String a (String b (String c EmptyString)) /\
     quote_asset_of "XBTZAR" = rest) /\
  (match calculate_order_size default_config "XBTZAR" demo_accounts 995995 "SELL" with
   | Ok v => v == 0.001 | Exc _ => False end)%Q.
Proof.
  apply (order_size_formula default_config "XBTZAR" demo_accounts 995995 "BUY"); reflexivity.
Defined.

Lemma find_asset_balance_absent (accounts : list pyval) (asset : string) :
  Forall (fun account => exists kvs v, account = PDict kvs /\
            assoc_lookup "asset" kvs = Some v /\ py_eq_str v asset = false) accounts ->
  find_asset_balance accounts asset = Ok zero_balance.
Proof.
  induction 1 as [|account rest (kvs & v & -> & Hk & Hv) _ IH]; [reflexivity|].
  simpl; rewrite Hk; simpl; rewrite Hv; exact IH.
Qed.

(** C6 (corrected).  An asset with no balance record raises nothing:
    [get_asset_balance] returns the zero balance.  With available balance
    0 the sell volume is 0, and the buy volume is 0 at any non-zero price;
    a buy at price 0 raises [ZeroDivisionError]. *)
Theorem zero_balance_order_size (cfg : config) (pair : string) (balances : pyval)
    (price : Q) (side : string) :
  (forall accounts asset,
     Forall (fun account => exists kvs v, account = PDict kvs /\
               assoc_lookup "asset" kvs = Some v /\ py_eq_str v asset = false) accounts ->
     get_asset_balance (PList accounts) asset = Ok zero_balance) /\
  (forall ab,
     get_asset_balance balances
       (if String.eqb side "BUY" then quote_asset_of pair else base_asset_of pair) = Ok ab ->
     (ab_available ab == 0)%Q ->
     ((String.eqb side "BUY" = false \/ ~ (price == 0)%Q) ->
        exists v, calculate_order_size cfg pair balances price side = Ok v /\ (v == 0)%Q) /\
     (side = "BUY" -> (price == 0)%Q ->
        calculate_order_size cfg pair balances price side = Exc ZeroDivisionError)).
Proof.
  split.
  - intros accounts asset H; apply find_asset_balance_absent, H.
  - intros ab Hab H0; unfold calculate_order_size.
    destruct (String.eqb side "BUY") eqn:Es; rewrite Hab; simpl.
    + unfold py_div; split.
      * intros [E|Hp]; [discriminate|].
        destruct (Qeq_bool price 0) eqn:Ep; [apply Qeq_bool_eq in Ep; contradiction|].
        eexists; split; [reflexivity|].
        rewrite H0; unfold Qdiv; rewrite !Qmult_0_l; reflexivity.
      * intros _ Hp; apply Qeq_bool_iff in Hp; rewrite Hp; reflexivity.
    + split.
      * intros _; eexists; split; [reflexivity|].
        rewrite H0; unfold Qdiv; rewrite !Qmult_0_l; reflexivity.
      * intros ->; discriminate.
Qed.

Lemma zero_balance_order_size_witness :
  get_asset_balance demo_accounts "USD" = Ok zero_balance /\
  (exists v, calculate_order_size default_config "XRPZAR" (PList [acct "XRP" "5" "5"]) 7 "SELL"
             = Ok v /\ (v == 0)%Q) /\
  calculate_order_size default_config "ETHXBT" (PList [acct "XBT" "0" "0"]) 0 "BUY"
  = Exc ZeroDivisionError.
Proof.
  split; [|split].
  - apply (proj1 (zero_balance_order_size default_config "USDCZAR" demo_accounts 0 "BUY")).
    repeat constructor; do 2 eexists; repeat split; reflexivity.
  - apply (proj2 (zero_balance_order_size default_config "XRPZAR" (PList [acct "XRP" "5" "5"]) 7 "SELL")
             {| ab_balance := 5; ab_reserved := 5; ab_available := 5 - 5 |});
      [reflexivity|reflexivity|left; reflexivity].
  - apply (proj2 (zero_balance_order_size default_config "ETHXBT" (PList [acct "XBT" "0" "0"]) 0 "BUY")
             {| ab_balance := 0; ab_reserved := 0; ab_available := 0 - 0 |});
      reflexivity.
Defined.

(** C6, counterexample.  With no balance record at all, a BUY at price 0
    raises [ZeroDivisionError] instead of sizing 0; the ETHXBT ticker of the
    demonstration world rounds both quotes to 0 at integer precision. *)
Lemma missing_balance_buy_at_zero_price_raises :
  get_asset_balance (PList []) "XBT" = Ok zero_balance /\
  calculate_order_size default_config "ETHXBT" (PList []) 0 "BUY" = Exc ZeroDivisionError /\
  get_market_making_prices default_config (demo_ticker "ETHXBT") = Ok {| p_bid := 0; p_ask := 0 |}.
Proof. vm_compute; repeat split; reflexivity. Qed.

(** ** Decimal formatting, balances and sizing *)

Lemma digit_value_char (d : Z) : 0 <= d < 10 -> digit_value (digit_char d) = Some d.
Proof.
  intros Hd; unfold digit_value, digit_char.
  rewrite Ascii.nat_ascii_embedding by lia.
  replace (Z.of_nat (Z.to_nat d + 48)) with (d + 48) by lia.
  replace ((48 <=? d + 48) && (d + 48 <=? 57))%bool with true by (symmetry; apply andb_true_iff; split; apply Z.leb_le; lia).
  f_equal; lia.
Qed.

Lemma read_digits_app (ds t : string) (acc : Z) (k : nat) :
  all_digits ds = true ->
  read_digits (String.append ds t) acc k =
  read_digits t (acc * 10 ^ Z.of_nat (String.length ds) + dval ds) (k + String.length ds).
Proof.
  revert acc k; induction ds as [|c ds IH]; intros acc k H; simpl.
  - rewrite Z.mul_1_r, Z.add_0_r, Nat.add_0_r; reflexivity.
  - cbn [all_digits] in H; apply andb_true_iff in H as [Hc Hds]; unfold is_digit in Hc.
    destruct (digit_value c) as [d|] eqn:Ed; [|discriminate].
    change (String.append (String c ds) t) with (String c (String.append ds t)); cbn [read_digits].
    rewrite IH by exact Hds.
    change (Z.pow_pos 10 (Pos.of_succ_nat (String.length ds))) with (10 ^ Z.of_nat (S (String.length ds))).
    f_equal; [|lia]. rewrite Nat2Z.inj_succ, Z.pow_succ_r by lia. ring.
Qed.

Lemma z_digits_spec (f : nat) (n : Z) (acc : string) :
  0 <= n < 10 ^ Z.of_nat f -> all_digits acc = true ->
  all_digits (z_digits f n acc) = true /\
  dval (z_digits f n acc) = n * 10 ^ Z.of_nat (String.length acc) + dval acc /\
  (String.length acc < String.length (z_digits f n acc) \/ f = O)%nat.
Proof.
  revert n acc; induction f as [|f IH]; intros n acc Hn Ha.
  - simpl in Hn; simpl. split; [exact Ha|]. split; [|right; reflexivity]. assert (n = 0) by lia; subst; reflexivity.
  - simpl. assert (Hm : 0 <= n mod 10 < 10) by (apply Z.mod_pos_bound; lia).
    assert (Hc : is_digit (digit_char (n mod 10)) = true)
      by (unfold is_digit; rewrite digit_value_char by exact Hm; reflexivity).
    destruct (n <? 10) eqn:E.
    + apply Z.ltb_lt in E. simpl. rewrite Hc, Ha, digit_value_char by exact Hm.
      split; [reflexivity|]; split; [|left; lia].
      rewrite Z.mod_small by lia; reflexivity.
    + apply Z.ltb_ge in E.
      assert (Hn' : 0 <= n / 10 < 10 ^ Z.of_nat f).
      { split; [apply Z.div_pos; lia|]. apply Z.div_lt_upper_bound; [lia|].
        rewrite <- Z.pow_succ_r by lia; rewrite <- Nat2Z.inj_succ; lia. }
      destruct (IH (n / 10) (String (digit_char (n mod 10)) acc) Hn') as (H1 & H2 & H3).
      { simpl; rewrite Hc, Ha; reflexivity. }
      split; [exact H1|]; split.
      * rewrite H2; cbn [dval String.length]; rewrite digit_value_char by exact Hm.
        rewrite Nat2Z.inj_succ, Z.pow_succ_r by lia.
        pose proof (Z.div_mod n 10 ltac:(lia)). nia.
      * simpl in H3; destruct H3 as [H3|H3]; [left; lia|subst f].
        simpl in Hn'; lia.
Qed.

Lemma z_digits_length (f : nat) (n : Z) (acc : string) (k : Z) :
  0 <= n < 10 ^ k -> 1 <= k ->
  (Z.of_nat (String.length (z_digits f n acc)) <= Z.of_nat (String.length acc) + k).
Proof.
  revert n acc k; induction f as [|f IH]; intros n acc k Hn Hk; simpl; [lia|].
  destruct (n <? 10) eqn:E; [simpl; lia|].
  apply Z.ltb_ge in E.
  assert (Hk2 : 2 <= k).
  { destruct (Z.le_gt_cases 2 k) as [|Hlt]; [assumption|].
    replace k with 1 in Hn by lia; simpl in Hn; lia. }
  specialize (IH (n / 10) (String (digit_char (n mod 10)) acc) (k - 1)).
  simpl String.length in IH.
  assert (0 <= n / 10 < 10 ^ (k - 1)).
  { split; [apply Z.div_pos; lia|]. apply Z.div_lt_upper_bound; [lia|].
    rewrite <- Z.pow_succ_r by lia. replace (Z.succ (k - 1)) with k by lia; lia. }
  specialize (IH H ltac:(lia)); lia.
Qed.

Lemma z_to_dec_spec (n : Z) :
  0 <= n ->
  all_digits (z_to_dec n) = true /\ dval (z_to_dec n) = n /\
  (0 < String.length (z_to_dec n))%nat /\
  (forall k, n < 10 ^ k -> 1 <= k -> Z.of_nat (String.length (z_to_dec n)) <= k).
Proof.
  intros Hn; unfold z_to_dec.
  assert (Hf : 0 <= n < 10 ^ Z.of_nat (S (Z.to_nat (Z.log2 n)))).
  { split; [exact Hn|]. pose proof (Z.log2_nonneg n).
    rewrite Nat2Z.inj_succ, Z2Nat.id by lia.
    apply Z.lt_le_trans with (2 ^ Z.succ (Z.log2 n)).
    - destruct (Z.eq_dec n 0) as [->|Hn0]; [simpl; lia|].
      apply Z.log2_spec; lia.
    - apply Z.pow_le_mono_l; lia. }
  destruct (z_digits_spec (S (Z.to_nat (Z.log2 n))) n EmptyString Hf eq_refl) as (H1 & H2 & H3).
  split; [exact H1|]; split; [rewrite H2; simpl; ring|]; split; [destruct H3; [simpl in *; lia|discriminate]|].
  intros k Hk Hk1. pose proof (z_digits_length (S (Z.to_nat (Z.log2 n))) n EmptyString k ltac:(lia) Hk1).
  replace (Z.of_nat (String.length EmptyString)) with 0 in H by reflexivity; lia.
Qed.

Lemma zeros_digits (k : nat) : all_digits (zeros k) = true /\ dval (zeros k) = 0.
Proof.
  induction k as [|k [H1 H2]]; [split; reflexivity|].
  simpl; rewrite H1, H2; split; reflexivity.
Qed.

Lemma all_digits_app (a b : string) :
  all_digits (String.append a b) = (all_digits a && all_digits b)%bool.
Proof. induction a as [|c a IH]; simpl; [reflexivity|rewrite IH, andb_assoc; reflexivity]. Qed.

Lemma string_length_app (a b : string) :
  String.length (String.append a b) = (String.length a + String.length b)%nat.
Proof. induction a as [|c a IH]; simpl; [reflexivity|rewrite IH; reflexivity]. Qed.

Lemma dval_app (a b : string) :
  dval (String.append a b) = dval a * 10 ^ Z.of_nat (String.length b) + dval b.
Proof.
  induction a as [|c a IH]; [reflexivity|].
  cbn [String.append dval]; rewrite IH, string_length_app, Nat2Z.inj_add, Z.pow_add_r by lia. ring.
Qed.

Lemma Qfloor_unique (z : Z) (y : Q) :
  (inject_Z z <= y)%Q -> (y < inject_Z (z + 1))%Q -> Qfloor y = z.
Proof.
  intros H1 H2. pose proof (Qfloor_le y) as H3. pose proof (Qlt_floor y) as H4.
  assert (z < Qfloor y + 1) by (rewrite Zlt_Qlt; eapply Qle_lt_trans; eassumption).
  assert (Qfloor y < z + 1) by (rewrite Zlt_Qlt; eapply Qle_lt_trans; eassumption).
  lia.
Qed.

Lemma round_half_even_opp (y : Q) : round_half_even (- y) = - round_half_even y.
Proof.
  pose proof (Qfloor_le y) as H1; pose proof (Qlt_floor y) as H2.
  rewrite inject_Z_plus in H2; change (inject_Z 1) with (1#1) in H2.
  unfold round_half_even; cbv zeta; set (f := Qfloor y) in *.
  destruct (Qeq_dec y (inject_Z f)) as [Ei|Ni].
  - assert (Hg : Qfloor (- y) = - f).
    { apply Qfloor_unique; rewrite ?inject_Z_plus, inject_Z_opp; change (inject_Z 1) with (1#1); lra. }
    rewrite Hg, inject_Z_opp.
    destruct (Qcompare_spec (- y - - inject_Z f) (1#2)); try lra.
    destruct (Qcompare_spec (y - inject_Z f) (1#2)); try lra. reflexivity.
  - assert (Hg : Qfloor (- y) = - f - 1).
    { assert (E1 : (inject_Z (- f - 1) == - inject_Z f - 1)%Q).
      { unfold Z.sub; rewrite inject_Z_plus, !inject_Z_opp; reflexivity. }
      assert (E2 : (inject_Z (- f - 1 + 1) == - inject_Z f)%Q).
      { rewrite inject_Z_plus, E1; change (inject_Z 1) with (1#1); ring. }
      apply Qfloor_unique; rewrite ?E1, ?E2; [|lra].
      assert (inject_Z f < y)%Q by (apply Qle_lt_or_eq in H1 as [H|H]; [exact H|symmetry in H; contradiction]).
      lra. }
    assert (inject_Z f < y)%Q by (apply Qle_lt_or_eq in H1 as [H|H]; [exact H|symmetry in H; contradiction]).
    assert (E1 : (inject_Z (- f - 1) == - inject_Z f - 1)%Q).
    { unfold Z.sub; rewrite inject_Z_plus, !inject_Z_opp; reflexivity. }
    rewrite Hg, E1.
    assert (He : Z.even (- f - 1) = negb (Z.even f)).
    { rewrite Z.even_sub, Z.even_opp; destruct (Z.even f); reflexivity. }
    destruct (Qcompare_spec (- y - (- inject_Z f - 1)) (1#2));
    destruct (Qcompare_spec (y - inject_Z f) (1#2)); try (exfalso; lra);
    rewrite ?He; try destruct (Z.even f); simpl; lia.
Qed.

Lemma string_app_nil_r (s : string) : String.append s EmptyString = s.
Proof. induction s as [|c s IH]; simpl; [reflexivity|rewrite IH; reflexivity]. Qed.

Lemma read_digits_all (ds : string) :
  all_digits ds = true -> read_digits ds 0 O = (dval ds, String.length ds, EmptyString).
Proof.
  intros H. rewrite <- (string_app_nil_r ds) at 1.
  rewrite read_digits_app by exact H. simpl; reflexivity.
Qed.

Lemma pow10_Zpos (p : nat) : pow10 p = Zpos (Z.to_pos (pow10 p)).
Proof. rewrite Z2Pos.id; [reflexivity|]. unfold pow10; apply Z.pow_pos_nonneg; lia. Qed.

Lemma Qmake_pow10 (n : Z) (p : nat) :
  (Qmake n (Z.to_pos (pow10 p)) == inject_Z n / inject_Z (pow10 p))%Q.
Proof.
  rewrite (pow10_Zpos p) at 2. unfold Qeq, Qdiv, Qmult, Qinv, inject_Z; simpl. ring.
Qed.

(** The digits after the sign that [format_fixed] writes for [n / 10^p]. *)
Lemma parse_fixed_body (n : Z) (p : nat) :
  0 <= n ->
  let body := match p with
              | O => z_to_dec (n / pow10 p)
              | S _ => String.append (z_to_dec (n / pow10 p))
                         (String.append "." (pad_left p (z_to_dec (n mod pow10 p))))
              end in
  (exists c r, body = String c r /\ is_digit c = true) /\
  exists q, parse_unsigned body = Some q /\ (q == inject_Z n / inject_Z (pow10 p))%Q.
Proof.
  intros Hn body.
  assert (HP : 0 < pow10 p) by (unfold pow10; apply Z.pow_pos_nonneg; lia).
  destruct (z_to_dec_spec (n / pow10 p) ltac:(apply Z.div_pos; lia)) as (A1 & A2 & A3 & _).
  assert (Hfirst : exists c r, z_to_dec (n / pow10 p) = String c r /\ is_digit c = true).
  { destruct (z_to_dec (n / pow10 p)) as [|c r]; [simpl in A3; lia|].
    exists c, r; split; [reflexivity|]. simpl in A1; apply andb_true_iff in A1; apply A1. }
  destruct Hfirst as (c & r & Hcr & Hc).
  subst body; destruct p as [|p'].
  - split; [exists c, r; split; assumption|].
    unfold parse_unsigned; rewrite read_digits_all by exact A1.
    destruct (Nat.eqb_spec (String.length (z_to_dec (n / pow10 0))) 0) as [E|_]; [lia|].
    eexists; split; [reflexivity|]. rewrite A2. unfold pow10; simpl; rewrite Z.div_1_r.
    unfold Qeq, Qdiv, Qmult, Qinv, inject_Z; simpl; ring.
  - set (p := S p') in *.
    set (z := z_to_dec (n mod pow10 p)).
    destruct (z_to_dec_spec (n mod pow10 p) ltac:(apply Z.mod_pos_bound; lia)) as (B1 & B2 & _ & B4).
    fold z in B1, B2, B4.
    assert (Hz : (String.length z <= p)%nat).
    { enough (Z.of_nat (String.length z) <= Z.of_nat p) by lia.
      apply B4; [apply Z.mod_pos_bound; lia|lia]. }
    assert (Hpad : all_digits (pad_left p z) = true /\ dval (pad_left p z) = n mod pow10 p /\
                   String.length (pad_left p z) = p).
    { unfold pad_left; destruct (zeros_digits (p - String.length z)) as [Z1 Z2].
      rewrite all_digits_app, Z1, B1, dval_app, Z2, string_length_app.
      split; [reflexivity|]; split; [rewrite B2; ring|].
      assert (forall k, String.length (zeros k) = k) as ->
        by (induction k; simpl; [reflexivity|rewrite IHk; reflexivity]).
      lia. }
    destruct Hpad as (P1 & P2 & P3).
    split; [exists c, (String.append r (String.append "." (pad_left p z))); split;
             [rewrite Hcr; reflexivity|exact Hc]|].
    unfold parse_unsigned.
    rewrite read_digits_app by exact A1.
    cbn [String.append read_digits]. 
    replace (digit_value "."%char) with (@None Z) by reflexivity.
    cbv beta iota. rewrite Ascii.eqb_refl.
    rewrite read_digits_all by exact P1.
    destruct (Nat.eqb_spec (0 + String.length (z_to_dec (n / pow10 p)) + String.length (pad_left p z)) 0)
      as [E|_]; [lia|].
    eexists; split; [reflexivity|].
    rewrite P2, P3, A2, Z.mul_0_l, Z.add_0_l.
    rewrite Qmake_pow10, Z.mul_comm, <- Z.div_mod by lia. reflexivity.
Qed.

Lemma round_half_even_nonneg (y : Q) : (0 <= y)%Q -> 0 <= round_half_even y.
Proof. intros H; apply (round_half_even_mono 0 y) in H; exact H. Qed.

(** Reading back a price or volume string.  For every rational [x] and
    precision [p], the string [format_fixed x p] (the ["{x:.pf}"] of the
    bot) parses with [float_of_string] to the value [round(x, p)]. *)
Theorem format_fixed_round_trip (x : Q) (p : nat) :
  exists q, float_of_string (format_fixed x p) = Some q /\ (q == py_round x p)%Q.
Proof.
  unfold format_fixed; cbv zeta.
  set (n := round_half_even (Qabs x * inject_Z (pow10 p))).
  assert (Hn : 0 <= n).
  { apply round_half_even_nonneg, Qmult_le_0_compat; [apply Qabs_nonneg|].
    apply Qlt_le_weak, pow10_pos. }
  destruct (parse_fixed_body n p Hn) as ((c & r & Hb & Hc) & q & Hq & Hqe).
  assert (Hbody : match p with
                  | O => String.append EmptyString (z_to_dec (n / pow10 p))
                  | S _ => String.append EmptyString (String.append (z_to_dec (n / pow10 p))
                             (String.append "." (pad_left p (z_to_dec (n mod pow10 p)))))
                  end = String c r) by (destruct p; exact Hb).
  destruct (Qlt_le_dec x 0) as [Hx|Hx].
  - assert (Hr : round_half_even (x * inject_Z (pow10 p)) = - n).
    { subst n; rewrite <- round_half_even_opp; apply round_half_even_compat.
      rewrite Qabs_neg by (apply Qlt_le_weak, Hx); ring. }
    exists (- q)%Q; split.
    + destruct p; simpl; unfold parse_unsigned in *; simpl in Hq |- *; rewrite Hq; reflexivity.
    + unfold py_round; rewrite Hr, Hqe, inject_Z_opp.
      pose proof (pow10_pos p). field. intros E; rewrite E in H; discriminate.
  - assert (Hr : round_half_even (x * inject_Z (pow10 p)) = n).
    { subst n; apply round_half_even_compat. rewrite Qabs_pos by exact Hx; reflexivity. }
    exists q; split.
    + destruct p; rewrite Hbody; unfold float_of_string;
        (destruct (Ascii.eqb_spec c "-"%char) as [->|_]; [discriminate|]);
        (destruct (Ascii.eqb_spec c "+"%char) as [->|_]; [discriminate|]);
        rewrite <- Hb; exact Hq.
    + unfold py_round; rewrite Hr; exact Hqe.
Qed.

Lemma find_asset_balance_skip (pre rest : list pyval) (asset : string) :
  Forall (fun account => exists kvs v, account = PDict kvs /\
            assoc_lookup "asset" kvs = Some v /\ py_eq_str v asset = false) pre ->
  find_asset_balance (pre ++ rest) asset = find_asset_balance rest asset.
Proof.
  induction 1 as [|account pre' (kvs & v & -> & Hk & Hv) _ IH]; [reflexivity|].
  simpl; rewrite Hk; simpl; rewrite Hv; exact IH.
Qed.

(** [get_asset_balance] returns the first dict record whose ["asset"]
    equals the asset.  Earlier records must be dicts with a different
    ["asset"].  The result holds that record's balance and reserved, and
    their difference as the available amount.  Later records are never
    inspected. *)
Theorem get_asset_balance_first_match (pre post : list pyval) (kvs : list (string * pyval))
    (asset : string) (bv rv : pyval) (b r : Q)
    (Hpre : Forall (fun account => exists kvs v, account = PDict kvs /\
               assoc_lookup "asset" kvs = Some v /\ py_eq_str v asset = false) pre)
    (Ha : assoc_lookup "asset" kvs = Some (PStr asset))
    (Hb : assoc_lookup "balance" kvs = Some bv) (Hbf : py_float bv = Ok b)
    (Hr : assoc_lookup "reserved" kvs = Some rv) (Hrf : py_float rv = Ok r) :
  get_asset_balance (PList (pre ++ PDict kvs :: post)) asset
  = Ok {| ab_balance := b; ab_reserved := r; ab_available := (b - r)%Q |}.
Proof.
  unfold get_asset_balance; simpl; rewrite find_asset_balance_skip by exact Hpre.
  simpl; rewrite Ha; simpl; rewrite String.eqb_refl, Hb; simpl; rewrite Hbf; simpl.
  rewrite Hr; simpl; rewrite Hrf; reflexivity.
Qed.

(** The errors of [get_asset_balance], after dict records of other assets.
    A record without ["asset"] raises [KeyError].  A record that is not a
    dict raises [TypeError].  A non-empty dict in place of the list
    raises [TypeError], because iterating a dict yields its key strings.
    An empty dict gives the zero balance. *)
Theorem get_asset_balance_errors (pre rest : list pyval) (asset : string) :
  Forall (fun account => exists kvs v, account = PDict kvs /\
            assoc_lookup "asset" kvs = Some v /\ py_eq_str v asset = false) pre ->
  (forall kvs, assoc_lookup "asset" kvs = None ->
     get_asset_balance (PList (pre ++ PDict kvs :: rest)) asset = Exc KeyError) /\
  (forall v, (forall kvs, v <> PDict kvs) ->
     get_asset_balance (PList (pre ++ v :: rest)) asset = Exc TypeError) /\
  (forall k v kvs, get_asset_balance (PDict ((k, v) :: kvs)) asset = Exc TypeError) /\
  get_asset_balance (PDict []) asset = Ok zero_balance.
Proof.
  intros Hpre; split; [|split; [|split]].
  - intros kvs Hk; unfold get_asset_balance; simpl; rewrite find_asset_balance_skip by exact Hpre.
    simpl; rewrite Hk; reflexivity.
  - intros v Hv; unfold get_asset_balance; simpl; rewrite find_asset_balance_skip by exact Hpre.
    simpl; destruct v; try reflexivity. exfalso; eapply Hv; reflexivity.
  - reflexivity.
  - reflexivity.
Qed.

(** The quotes are monotone in the ticker.  Suppose the spread percentage
    lies in [0, 100].  If neither ticker price goes down, then neither
    rounded quote goes down. *)
Theorem quotes_monotone (cfg : config) (t1 t2 bv1 av1 bv2 av2 : pyval) (bid1 ask1 bid2 ask2 : Q)
    (Hb1 : py_getitem t1 "bid" = Ok bv1) (Hbf1 : py_float bv1 = Ok bid1)
    (Ha1 : py_getitem t1 "ask" = Ok av1) (Haf1 : py_float av1 = Ok ask1)
    (Hb2 : py_getitem t2 "bid" = Ok bv2) (Hbf2 : py_float bv2 = Ok bid2)
    (Ha2 : py_getitem t2 "ask" = Ok av2) (Haf2 : py_float av2 = Ok ask2)
    (Hbid : (bid1 <= bid2)%Q) (Hask : (ask1 <= ask2)%Q)
    (Hsp : (0 <= spread_percentage cfg <= 100)%Q) :
  exists pr1 pr2, get_market_making_prices cfg t1 = Ok pr1 /\ get_market_making_prices cfg t2 = Ok pr2 /\
    (p_bid pr1 <= p_bid pr2)%Q /\ (p_ask pr1 <= p_ask pr2)%Q.
Proof.
  rewrite (get_market_making_prices_eq cfg t1 bv1 av1 bid1 ask1 Hb1 Hbf1 Ha1 Haf1).
  rewrite (get_market_making_prices_eq cfg t2 bv2 av2 bid2 ask2 Hb2 Hbf2 Ha2 Haf2).
  do 2 eexists; split; [reflexivity|]; split; [reflexivity|]; cbn [p_bid p_ask].
  set (sp := spread_percentage cfg) in *.
  assert (Hd : (0 <= (bid2 + ask2) / 2 - (bid1 + ask1) / 2)%Q).
  { setoid_replace ((bid2 + ask2) / 2 - (bid1 + ask1) / 2)%Q
      with ((bid2 - bid1 + (ask2 - ask1)) * (1#2))%Q by field.
    apply Qmult_le_0_compat; [lra|discriminate]. }
  assert (Hs1 : (0 <= 1 - sp / 100)%Q).
  { setoid_replace (1 - sp / 100)%Q with ((100 - sp) * (1#100))%Q by field.
    apply Qmult_le_0_compat; [lra|discriminate]. }
  assert (Hs2 : (0 <= 1 + sp / 100)%Q).
  { setoid_replace (1 + sp / 100)%Q with ((100 + sp) * (1#100))%Q by field.
    apply Qmult_le_0_compat; [lra|discriminate]. }
  split; apply py_round_mono.
  - assert (Hm := Qmult_le_0_compat _ _ Hd Hs1).
    setoid_replace (((bid2 + ask2) / 2 - (bid1 + ask1) / 2) * (1 - sp / 100))%Q
      with (((bid2 + ask2) / 2 - (bid2 + ask2) / 2 * sp / 100)
            - ((bid1 + ask1) / 2 - (bid1 + ask1) / 2 * sp / 100))%Q in Hm by field.
    lra.
  - assert (Hm := Qmult_le_0_compat _ _ Hd Hs2).
    setoid_replace (((bid2 + ask2) / 2 - (bid1 + ask1) / 2) * (1 + sp / 100))%Q
      with (((bid2 + ask2) / 2 + (bid2 + ask2) / 2 * sp / 100)
            - ((bid1 + ask1) / 2 + (bid1 + ask1) / 2 * sp / 100))%Q in Hm by field.
    lra.
Qed.

(** ** Order registry and API outcomes *)

Lemma place_side_registry (w : world) (cfg : config) (pair : string) (balances : pyval)
    (price : Q) (side order_type : string) (active active' : active_orders) (s s' : state) :
  place_side w cfg pair balances price side order_type active s = (Ok active', s') ->
  exists new, active' = active ++ new /\ (List.length new <= 1)%nat /\
    Forall (fun e => py_truthy (fst e) = true /\ ao_pair (snd e) = pair /\
                     ao_type (snd e) = order_type /\ (0 < ao_volume (snd e))%Q) new.
Proof.
  unfold place_side; intros H; crush H; try discriminate H; injection H as <- <-;
  try (exists []; split; [rewrite app_nil_r; reflexivity|split; [simpl; lia|constructor]]).
  eexists; split; [reflexivity|]; split; [simpl; lia|].
  constructor; [|constructor]; cbn [fst snd ao_pair ao_type ao_volume].
  split; [assumption|]; split; [reflexivity|]; split; [reflexivity|apply Qltb_true; assumption].
Qed.

Lemma process_pair_registry (w : world) (cfg : config) (balances : pyval) (pair : string)
    (active active' : active_orders) (s s' : state) :
  process_pair w cfg balances pair active s = (Ok active', s') ->
  exists new, active' = active ++ new /\ (List.length new <= 2)%nat /\
    Forall (fun e => py_truthy (fst e) = true /\ ao_pair (snd e) = pair /\
                     (ao_type (snd e) = "BID" \/ ao_type (snd e) = "ASK") /\
                     (0 < ao_volume (snd e))%Q) new.
Proof.
  unfold process_pair; intros H; crush H; try discriminate H;
    try (injection H as <- <-; exists []; split; [rewrite app_nil_r; reflexivity|split; [simpl; lia|constructor]]).
  apply place_side_registry in E5 as (n1 & -> & L1 & F1).
  apply place_side_registry in H as (n2 & -> & L2 & F2).
  exists (n1 ++ n2); split; [rewrite app_assoc; reflexivity|].
  split; [rewrite length_app; lia|].
  apply Forall_app; split; [eapply Forall_impl; [|exact F1]|eapply Forall_impl; [|exact F2]];
    intros e (? & ? & Ht & ?); rewrite Ht; tauto.
Qed.

Lemma process_pairs_registry (w : world) (cfg : config) (balances : pyval) (pairs : list string)
    (active active' : active_orders) (s s' : state) :
  process_pairs w cfg balances pairs active s = (Ok active', s') ->
  exists new, active' = active ++ new /\ (List.length new <= 2 * List.length pairs)%nat /\
    Forall (registry_entry pairs) new.
Proof.
  revert active s; induction pairs as [|p rest IH]; intros active s H.
  - injection H as <- <-; exists []; split; [rewrite app_nil_r; reflexivity|split; [simpl; lia|constructor]].
  - simpl in H; unfold bind at 1 in H.
    destruct (process_pair w cfg balances p active s) as [[a1|e] s1] eqn:E; [|discriminate H].
    apply process_pair_registry in E as (n1 & -> & L1 & F1).
    apply IH in H as (n2 & -> & L2 & F2).
    exists (n1 ++ n2); split; [rewrite app_assoc; reflexivity|].
    split; [rewrite length_app; simpl; lia|].
    apply Forall_app; split.
    + eapply Forall_impl; [|exact F1]; intros e (H1 & H2 & H3 & H4).
      unfold registry_entry; rewrite H2; simpl; tauto.
    + eapply Forall_impl; [|exact F2]; intros e (H1 & H2 & H3 & H4).
      unfold registry_entry; simpl; tauto.
Qed.

Lemma process_pair_registry_split (w : world) (cfg : config) (balances : pyval) (pair : string)
    (active active' : active_orders) (s s' : state) :
  process_pair w cfg balances pair active s = (Ok active', s') ->
  exists n1 n2, active' = active ++ n1 ++ n2 /\ (List.length n1 <= 1)%nat /\ (List.length n2 <= 1)%nat /\
    Forall (fun e => ao_pair (snd e) = pair /\ ao_type (snd e) = "BID") n1 /\
    Forall (fun e => ao_pair (snd e) = pair /\ ao_type (snd e) = "ASK") n2.
Proof.
  unfold process_pair; intros H; crush H; try discriminate H;
    try (injection H as <- <-; exists [], []; split; [rewrite app_nil_r; reflexivity|];
         split; [simpl; lia|split; [simpl; lia|split; constructor]]).
  apply place_side_registry in E5 as (n1 & -> & L1 & F1).
  apply place_side_registry in H as (n2 & -> & L2 & F2).
  exists n1, n2; split; [rewrite app_assoc; reflexivity|].
  split; [exact L1|split; [exact L2|split]].
  - eapply Forall_impl; [|exact F1]; intros e (_ & Hp & Ht & _); split; assumption.
  - eapply Forall_impl; [|exact F2]; intros e (_ & Hp & Ht & _); split; assumption.
Qed.

Lemma filter_le_one {A} (f : A -> bool) (P : A -> Prop) (l : list A) (b : bool) :
  (List.length l <= 1)%nat -> Forall P l -> (forall x, P x -> f x = true -> b = true) ->
  (List.length (filter f l) <= (if b then 1 else 0))%nat.
Proof.
  intros Hl Hf Hb; destruct l as [|x [|y l]]; simpl in *; try lia.
  inversion Hf as [|? ? Hx _]; subst.
  destruct (f x) eqn:Ef; simpl; [rewrite (Hb x Hx Ef); lia|destruct b; lia].
Qed.

Lemma process_pairs_count (w : world) (cfg : config) (balances : pyval) (pairs : list string)
    (active active' : active_orders) (s s' : state) :
  process_pairs w cfg balances pairs active s = (Ok active', s') ->
  exists new, active' = active ++ new /\
    forall p t,
      (List.length (filter (fun e => String.eqb (ao_pair (snd e)) p) new)
         <= 2 * count_occ string_dec pairs p)%nat /\
      (List.length (filter (fun e => String.eqb (ao_pair (snd e)) p && String.eqb (ao_type (snd e)) t) new)
         <= count_occ string_dec pairs p)%nat.
Proof.
  revert active s; induction pairs as [|q rest IH]; intros active s H.
  - injection H as <- <-; exists []; split; [rewrite app_nil_r; reflexivity|]; intros; simpl; lia.
  - simpl in H; unfold bind at 1 in H.
    destruct (process_pair w cfg balances q active s) as [[a1|e] s1] eqn:E; [|discriminate H].
    apply process_pair_registry_split in E as (n1 & n2 & -> & L1 & L2 & F1 & F2).
    apply IH in H as (n3 & -> & C3).
    exists (n1 ++ n2 ++ n3); split; [rewrite !app_assoc; reflexivity|].
    intros p t; destruct (C3 p t) as [C3a C3b].
    rewrite !filter_app, !length_app; simpl.
    destruct (string_dec q p) as [<-|Hne].
    + split.
      * pose proof (filter_le_one (fun e => String.eqb (ao_pair (snd e)) q) _ n1 true L1 F1
                      (fun _ _ _ => eq_refl)).
        pose proof (filter_le_one (fun e => String.eqb (ao_pair (snd e)) q) _ n2 true L2 F2
                      (fun _ _ _ => eq_refl)).
        simpl in *; lia.
      * pose proof (filter_le_one (fun e => String.eqb (ao_pair (snd e)) q && String.eqb (ao_type (snd e)) t)
                      _ n1 (String.eqb "BID" t) L1 F1) as B1.
        pose proof (filter_le_one (fun e => String.eqb (ao_pair (snd e)) q && String.eqb (ao_type (snd e)) t)
                      _ n2 (String.eqb "ASK" t) L2 F2) as B2.
        destruct (String.eqb "BID" t) eqn:Eb; destruct (String.eqb "ASK" t) eqn:Ea.
        -- apply String.eqb_eq in Eb, Ea; congruence.
        -- assert (B2' : (List.length (filter (fun e => String.eqb (ao_pair (snd e)) q
                                                  && String.eqb (ao_type (snd e)) t) n2) <= 0)%nat).
           { apply B2; intros x [_ Hx] Hf; apply andb_true_iff in Hf as [_ Hf];
               rewrite Hx in Hf; congruence. }
           specialize (B1 (fun _ _ _ => eq_refl)); lia.
        -- assert (B1' : (List.length (filter (fun e => String.eqb (ao_pair (snd e)) q
                                                  && String.eqb (ao_type (snd e)) t) n1) <= 0)%nat).
           { apply B1; intros x [_ Hx] Hf; apply andb_true_iff in Hf as [_ Hf];
               rewrite Hx in Hf; congruence. }
           specialize (B2 (fun _ _ _ => eq_refl)); lia.
        -- assert (B1' : (List.length (filter (fun e => String.eqb (ao_pair (snd e)) q
                                                  && String.eqb (ao_type (snd e)) t) n1) <= 0)%nat).
           { apply B1; intros x [_ Hx] Hf; apply andb_true_iff in Hf as [_ Hf];
               rewrite Hx in Hf; congruence. }
           assert (B2' : (List.length (filter (fun e => String.eqb (ao_pair (snd e)) q
                                                  && String.eqb (ao_type (snd e)) t) n2) <= 0)%nat).
           { apply B2; intros x [_ Hx] Hf; apply andb_true_iff in Hf as [_ Hf];
               rewrite Hx in Hf; congruence. }
           lia.
    + assert (Z1 : forall (n : active_orders) ty, Forall (fun e : pyval * active_order => ao_pair (snd e) = q /\ ao_type (snd e) = ty) n ->
                   forall g : pyval * active_order -> bool,
                   List.length (filter (fun e : pyval * active_order => String.eqb (ao_pair (snd e)) p && g e) n) = 0%nat).
      { intros n ty Hf g; induction Hf as [|x n [Hx _] _ IHn]; [reflexivity|simpl].
        rewrite Hx; destruct (String.eqb_spec q p) as [Heq|_]; [congruence|exact IHn]. }
      assert (Z2 : forall (n : active_orders) ty, Forall (fun e : pyval * active_order => ao_pair (snd e) = q /\ ao_type (snd e) = ty) n ->
                   List.length (filter (fun e : pyval * active_order => String.eqb (ao_pair (snd e)) p) n) = 0%nat).
      { intros n ty Hf; rewrite <- (Z1 n ty Hf (fun _ => true)).
        f_equal; apply filter_ext; intros e; rewrite andb_true_r; reflexivity. }
      rewrite (Z2 _ _ F1), (Z2 _ _ F2), (Z1 _ _ F1), (Z1 _ _ F2); simpl; lia.
Qed.

(** The registry that a successful cycle returns has at most two entries per
    configured pair.  Each entry has a truthy order id, a configured pair,
    type ["BID"] or ["ASK"], and a strictly positive volume.  For each pair
    [p] and each type [t], it has at most one entry of pair [p] and type
    [t] per occurrence of [p] in [TRADING_PAIRS], so at most two entries of
    pair [p]: one ["BID"] and one ["ASK"] when the pairs are distinct. *)
Theorem place_orders_registry (w : world) (cfg : config) (s s' : state) (registry : active_orders) :
  place_market_making_orders w cfg s = (Ok (Some registry), s') ->
  (List.length registry <= 2 * List.length (trading_pairs cfg))%nat /\
  Forall (fun e => py_truthy (fst e) = true /\ In (ao_pair (snd e)) (trading_pairs cfg) /\
                   (ao_type (snd e) = "BID" \/ ao_type (snd e) = "ASK") /\
                   (0 < ao_volume (snd e))%Q) registry /\
  (forall p t,
     (List.length (filter (fun e => String.eqb (ao_pair (snd e)) p) registry)
        <= 2 * count_occ string_dec (trading_pairs cfg) p)%nat /\
     (List.length (filter (fun e => String.eqb (ao_pair (snd e)) p && String.eqb (ao_type (snd e)) t)
                          registry)
        <= count_occ string_dec (trading_pairs cfg) p)%nat).
Proof.
  unfold place_market_making_orders; intros H; crush H; try discriminate H.
  pose proof E2 as E2'.
  apply process_pairs_registry in E2 as (n & Hn & L & F).
  apply process_pairs_count in E2' as (n' & Hn' & C).
  injection H as <- <-; simpl in Hn, Hn'; subst; split; [exact L|split; [exact F|exact C]].
Qed.


(** The outcomes of [create_order], one for each kind of answer to its
    [postorder] request.  An error status logs the API error and the
    failure, and returns [None].  A dict with ["order_id"] logs the created
    order and returns the id.  A falsy body, or a dict without
    ["order_id"], logs the failure.  A list that contains the string
    ["order_id"] raises [TypeError]. *)
Theorem create_order_outcome (w : world) (cfg : config) (pair order_type : string)
    (volume price : Q) (s : state) (status : Z) (body : pyval)
    (Hg : gw w (nreq s) (post_req cfg pair order_type volume price) = RHttp status body) :
  let rq := post_req cfg pair order_type volume price in
  (is_success status = false ->
     create_order w cfg pair order_type volume price s
     = (Ok PNone, after s [EReq rq; ELog (LApiError status); ELog (LFailedCreate order_type pair)] 1)) /\
  (is_success status = true -> forall kvs order_id, body = PDict kvs ->
     assoc_lookup "order_id" kvs = Some order_id ->
     create_order w cfg pair order_type volume price s
     = (Ok order_id, after s [EReq rq; ELog (LCreated order_type pair
                                (format_fixed volume (volume_precision cfg))
                                (format_fixed price (price_precision cfg)) order_id)] 1)) /\
  (is_success status = true -> (py_truthy body = false \/
     exists kvs, body = PDict kvs /\ assoc_lookup "order_id" kvs = None) ->
     create_order w cfg pair order_type volume price s
     = (Ok PNone, after s [EReq rq; ELog (LFailedCreate order_type pair)] 1)) /\
  (is_success status = true -> forall l, body = PList l ->
     In (PStr "order_id") l ->
     fst (create_order w cfg pair order_type volume price s) = Exc TypeError).
Proof.
  intros rq; unfold create_order, make_request, send, bind, log, emit, ret, lift; cbv beta iota zeta.
  unfold rq, post_req in *; rewrite Hg; cbv beta iota zeta.
  split; [|split; [|split]].
  - intros Hs; rewrite Hs; cbn; unfold after; cbn; rewrite <- !app_assoc; reflexivity.
  - intros Hs kvs oid -> Ho; rewrite Hs; cbv beta iota.
    destruct kvs as [|kv kvs]; [discriminate Ho|].
    cbn [py_truthy negb List.length Nat.eqb]; cbv beta iota.
    unfold py_contains, py_getitem; rewrite Ho; cbv beta iota.
    unfold after; cbn [trace nreq nsleep]; rewrite <- !app_assoc; reflexivity.
  - intros Hs [Hb|(kvs & -> & Ho)]; rewrite Hs; cbv beta iota.
    + rewrite Hb; cbv beta iota. unfold after; cbn [trace nreq nsleep]; rewrite <- !app_assoc; reflexivity.
    + destruct (py_truthy (PDict kvs)) eqn:Et; cbv beta iota;
        [unfold py_contains; rewrite Ho; cbv beta iota|];
        unfold after; cbn [trace nreq nsleep]; rewrite <- !app_assoc; reflexivity.
  - intros Hs l -> Hin; rewrite Hs; cbv beta iota.
    destruct l as [|x l]; [destruct Hin|].
    cbn [py_truthy negb List.length Nat.eqb py_contains]; cbv beta iota.
    assert (Hex : existsb (fun x => match x with PStr s0 => String.eqb s0 "order_id" | _ => false end)
                    (x :: l) = true).
    { apply existsb_exists; exists (PStr "order_id"); split; [exact Hin|apply String.eqb_refl]. }
    rewrite Hex; reflexivity.
Qed.

(** The outcomes of [cancel_order], one for each kind of answer to its
    [stoporder] request.  Only a dict with a truthy ["success"] gives
    [True].  An error status, a falsy body, or a missing or falsy
    ["success"] gives [False].  A truthy body that is not a dict raises
    [AttributeError]. *)
Theorem cancel_order_outcome (w : world) (order_id : pyval) (s : state) (status : Z) (body : pyval)
    (Hg : gw w (nreq s) (stop_req order_id) = RHttp status body) :
  (is_success status = false ->
     cancel_order w order_id s
     = (Ok false, after s [EReq (stop_req order_id); ELog (LApiError status);
                           ELog (LFailedCancel order_id)] 1)) /\
  (is_success status = true -> forall kvs v, body = PDict kvs ->
     assoc_lookup "success" kvs = Some v -> py_truthy v = true ->
     cancel_order w order_id s
     = (Ok true, after s [EReq (stop_req order_id); ELog (LCancelled order_id)] 1)) /\
  (is_success status = true ->
     (py_truthy body = false \/ exists kvs, body = PDict kvs /\
        match assoc_lookup "success" kvs with Some v => py_truthy v = false | None => True end) ->
     cancel_order w order_id s
     = (Ok false, after s [EReq (stop_req order_id); ELog (LFailedCancel order_id)] 1)) /\
  (is_success status = true -> py_truthy body = true -> (forall kvs, body <> PDict kvs) ->
     fst (cancel_order w order_id s) = Exc AttributeError).
Proof.
  unfold cancel_order, make_request, send, bind, log, emit, ret, lift; cbv beta iota zeta.
  rewrite Hg; cbv beta iota zeta.
  split; [|split; [|split]].
  - intros Hs; rewrite Hs; cbn; unfold after; cbn; rewrite <- !app_assoc; reflexivity.
  - intros Hs kvs v -> Hk Hv; rewrite Hs; cbv beta iota.
    destruct kvs as [|kv kvs]; [discriminate Hk|].
    cbn [py_truthy negb List.length Nat.eqb]; cbv beta iota.
    unfold py_get; rewrite Hk; cbv beta iota; rewrite Hv.
    unfold after; cbn [trace nreq nsleep]; rewrite <- !app_assoc; reflexivity.
  - intros Hs [Hb|(kvs & -> & Hk)]; rewrite Hs; cbv beta iota.
    + rewrite Hb; cbv beta iota. unfold after; cbn [trace nreq nsleep]; rewrite <- !app_assoc; reflexivity.
    + destruct (py_truthy (PDict kvs)) eqn:Et; cbv beta iota;
        [unfold py_get; destruct (assoc_lookup "success" kvs) as [v|]; cbv beta iota;
         [rewrite Hk|]|];
        cbn [py_truthy]; cbv beta iota; unfold after; cbn [trace nreq nsleep]; rewrite <- ?app_assoc; reflexivity.
  - intros Hs Hb Hd; rewrite Hs, Hb; cbv beta iota.
    destruct body; try reflexivity; exfalso; eapply Hd; reflexivity.
Qed.

(** A cycle without balances ends after its first request.  If the accounts
    request fails or answers a falsy body, the bot logs the failure and
    returns [None].  It sends no other request. *)
Theorem place_orders_without_balances (w : world) (cfg : config) (s : state) (status : Z) (body : pyval)
    (Hg : gw w (nreq s) (req_GET "accounts" []) = RHttp status body)
    (Hf : is_success status = false \/ py_truthy body = false) :
  place_market_making_orders w cfg s
  = (Ok None, after s (EReq (req_GET "accounts" []) ::
                       (if is_success status then [] else [ELog (LApiError status)]) ++
                       [ELog LFailedBalances]) 1).
Proof.
  unfold place_market_making_orders, get_balances, make_request, send, bind, log, emit, ret; cbv beta iota zeta.
  rewrite Hg; cbv beta iota zeta.
  destruct (is_success status) eqn:Es; cbv beta iota.
  - destruct Hf as [Hf|Hf]; [discriminate|rewrite Hf]; simpl; unfold after; simpl; rewrite <- ?app_assoc; reflexivity.
  - cbn [py_truthy negb]; cbv beta iota.
    unfold after; cbn [trace nreq nsleep]; rewrite <- ?app_assoc; reflexivity.
Qed.

(** ** Witnesses of the decimal, balance and order lemmas *)

Lemma get_asset_balance_first_match_witness :
  get_asset_balance
    (PList ([acct "XBT" "0.05" "0"] ++ acct "ZAR" "10000" "250" :: [acct "ZAR" "1" "0"])) "ZAR"
  = Ok {| ab_balance := 10000; ab_reserved := 250; ab_available := (10000 - 250)%Q |}.
Proof.
  apply (get_asset_balance_first_match [acct "XBT" "0.05" "0"] [acct "ZAR" "1" "0"]
           [("asset", PStr "ZAR"); ("balance", PStr "10000"); ("reserved", PStr "250")]
           "ZAR" (PStr "10000") (PStr "250")).
  - constructor; [|constructor].
    exists [("asset", PStr "XBT"); ("balance", PStr "0.05"); ("reserved", PStr "0")], (PStr "XBT").
    split; [reflexivity|split; reflexivity].
  - reflexivity.
  - reflexivity.
  - vm_compute; reflexivity.
  - reflexivity.
  - vm_compute; reflexivity.
Defined.

Lemma get_asset_balance_errors_witness :
  get_asset_balance (PList ([acct "XBT" "0.05" "0"] ++ PDict [("balance", PStr "1")] :: [])) "ZAR"
    = Exc KeyError /\
  get_asset_balance (PList ([acct "XBT" "0.05" "0"] ++ PStr "ZAR" :: [])) "ZAR" = Exc TypeError /\
  get_asset_balance (PDict [("ZAR", PStr "1")]) "ZAR" = Exc TypeError /\
  get_asset_balance (PDict []) "ZAR" = Ok zero_balance.
Proof.
  assert (Hpre : Forall (fun account => exists kvs v, account = PDict kvs /\
                   assoc_lookup "asset" kvs = Some v /\ py_eq_str v "ZAR" = false)
                   [acct "XBT" "0.05" "0"]).
  { constructor; [|constructor].
    exists [("asset", PStr "XBT"); ("balance", PStr "0.05"); ("reserved", PStr "0")], (PStr "XBT").
    split; [reflexivity|split; reflexivity]. }
  destruct (get_asset_balance_errors [acct "XBT" "0.05" "0"] [] "ZAR" Hpre) as (H1 & H2 & H3 & H4).
  split; [apply H1; reflexivity|].
  split; [apply H2; intros kvs; discriminate|].
  split; [apply H3|exact H4].
Defined.

Lemma quotes_monotone_witness :
  exists pr1 pr2,
    get_market_making_prices default_config (demo_ticker "XBTZAR") = Ok pr1 /\
    get_market_making_prices default_config
      (PDict [("bid", PStr "1000100"); ("ask", PStr "1002500")]) = Ok pr2 /\
    (p_bid pr1 <= p_bid pr2)%Q /\ (p_ask pr1 <= p_ask pr2)%Q.
Proof.
  apply (quotes_monotone default_config (demo_ticker "XBTZAR")
           (PDict [("bid", PStr "1000100"); ("ask", PStr "1002500")])
           (PStr "1000000") (PStr "1002000") (PStr "1000100") (PStr "1002500")
           1000000 1002000 1000100 1002500);
  vm_compute; first [reflexivity | intros H; discriminate H | split; intros H; discriminate H].
Defined.

Lemma place_orders_registry_witness :
  let r := place_market_making_orders small_world default_config init_state in
  exists registry, fst r = Ok (Some registry) /\
    (List.length registry <= 2 * List.length (trading_pairs default_config))%nat /\
    Forall (fun e => py_truthy (fst e) = true /\ In (ao_pair (snd e)) (trading_pairs default_config) /\
                     (ao_type (snd e) = "BID" \/ ao_type (snd e) = "ASK") /\
                     (0 < ao_volume (snd e))%Q) registry /\
    (forall p t,
       (List.length (filter (fun e => String.eqb (ao_pair (snd e)) p) registry)
          <= 2 * count_occ string_dec (trading_pairs default_config) p)%nat /\
       (List.length (filter (fun e => String.eqb (ao_pair (snd e)) p && String.eqb (ao_type (snd e)) t)
                            registry)
          <= count_occ string_dec (trading_pairs default_config) p)%nat).
Proof.
  set (reg := [(PStr "BXY1", {| ao_pair := "XBTZAR"; ao_type := "BID"; ao_price := 995995;
                                ao_volume := 20 # 995995000; ao_created_at := 0 |});
               (PStr "BXY1", {| ao_pair := "ETHZAR"; ao_type := "BID"; ao_price := 995995;
                                ao_volume := 20 # 995995000; ao_created_at := 0 |});
               (PStr "BXY1", {| ao_pair := "XRPZAR"; ao_type := "BID"; ao_price := 995995;
                                ao_volume := 20 # 995995000; ao_created_at := 0 |})]).
  intros r; exists reg.
  assert (Hr : place_market_making_orders small_world default_config init_state
               = (Ok (Some reg), snd r)) by (vm_compute; reflexivity).
  split; [unfold r; rewrite Hr; reflexivity|].
  exact (place_orders_registry small_world default_config init_state (snd r) reg Hr).
Defined.

Lemma create_order_outcome_witness :
  create_order demo_world default_config "XBTZAR" "BID" 1 995995 init_state
  = (Ok (PStr "NEW"),
     after init_state [EReq (post_req default_config "XBTZAR" "BID" 1 995995);
                       ELog (LCreated "BID" "XBTZAR" (format_fixed 1 (volume_precision default_config))
                               (format_fixed 995995 (price_precision default_config)) (PStr "NEW"))] 1) /\
  create_order down_world default_config "XBTZAR" "ASK" 1 1006005 init_state
  = (Ok PNone,
     after init_state [EReq (post_req default_config "XBTZAR" "ASK" 1 1006005);
                       ELog (LApiError 503); ELog (LFailedCreate "ASK" "XBTZAR")] 1).
Proof.
  split.
  - apply (proj1 (proj2 (create_order_outcome demo_world default_config "XBTZAR" "BID" 1 995995
                           init_state 200 (PDict [("order_id", PStr "NEW")]) eq_refl)))
      with (kvs := [("order_id", PStr "NEW")]); reflexivity.
  - apply (proj1 (create_order_outcome down_world default_config "XBTZAR" "ASK" 1 1006005
                    init_state 503 PNone eq_refl)); reflexivity.
Defined.

Lemma cancel_order_outcome_witness :
  cancel_order demo_world (PStr "OLD1") init_state
  = (Ok true, after init_state [EReq (stop_req (PStr "OLD1")); ELog (LCancelled (PStr "OLD1"))] 1) /\
  cancel_order down_world (PStr "OLD1") init_state
  = (Ok false, after init_state [EReq (stop_req (PStr "OLD1")); ELog (LApiError 503);
                                 ELog (LFailedCancel (PStr "OLD1"))] 1).
Proof.
  split.
  - apply (proj1 (proj2 (cancel_order_outcome demo_world (PStr "OLD1") init_state 200
                           (PDict [("success", PBool true)]) eq_refl)))
      with (kvs := [("success", PBool true)]) (v := PBool true); reflexivity.
  - apply (proj1 (cancel_order_outcome down_world (PStr "OLD1") init_state 503 PNone eq_refl));
    reflexivity.
Defined.

Lemma place_orders_without_balances_witness :
  place_market_making_orders down_world default_config init_state
  = (Ok None, after init_state [EReq (req_GET "accounts" []); ELog (LApiError 503);
                                ELog LFailedBalances] 1).
Proof.
  exact (place_orders_without_balances down_world default_config init_state 503 PNone
           eq_refl (or_introl eq_refl)).
Defined.

(** ** The demo and test scripts *)

Ltac dnorm H := unfold print_header, dbind, dret, dR, print, dM in H; cbv beta iota zeta in H.
(** Runs a script in hypothesis [H : m s = (r, s')], as [crush] does for
    the bot: the next test on the path of evaluation is destructed, and when
    that test is on the result of another test (a call into the bot,
    [let (r, b) := m (dbot s) in ...], or a branching step), the innermost
    one first. *)
Ltac destruct_scrut X H :=
  lazymatch X with
  | match ?Y with _ => _ end => destruct_scrut Y H
  | _ => let E := fresh "E" in destruct X eqn:E; cbv beta iota zeta in H
  end.

Ltac dcrush_step H :=
  lazymatch type of H with
  | (match ?X with _ => _ end) = _ => destruct_scrut X H
  | (match ?X with _ => _ end) _ = _ => destruct_scrut X H
  end.

Ltac dcrush H := dnorm H; repeat dcrush_step H; cbn [dbot dout] in *.

Lemma dsends_ret (P : request -> Prop) {A} (a : A) : dsends P (dret a).
Proof.
  intros s r s' H; injection H as <- <-; exists []; split; [rewrite app_nil_r; reflexivity|constructor].
Qed.

Lemma dsends_R (P : request -> Prop) {A} (x : result A) : dsends P (dR x).
Proof.
  intros s r s' H; injection H as <- <-; exists []; split; [rewrite app_nil_r; reflexivity|constructor].
Qed.

Lemma dsends_print (P : request -> Prop) (l : pline) : dsends P (print l).
Proof.
  intros s r s' H; injection H as <- <-; exists []; split; [rewrite app_nil_r; reflexivity|constructor].
Qed.

Lemma dsends_bind (P : request -> Prop) {A B} (m : DM A) (k : A -> DM B) :
  dsends P m -> (forall a, dsends P (k a)) -> dsends P (dbind m k).
Proof.
  intros Hm Hk s r s' H; unfold dbind in H.
  destruct (m s) as [[a|e] s1] eqn:E; apply Hm in E as (d1 & Ht1 & Hf1).
  - apply Hk in H as (d2 & Ht2 & Hf2).
    exists (d1 ++ d2); split; [rewrite Ht2, Ht1, app_assoc; reflexivity|].
    rewrite reqs_of_app; apply Forall_app; split; assumption.
  - injection H as <- <-; exists d1; split; assumption.
Qed.

Lemma dsends_for_each (P : request -> Prop) {A} (f : A -> DM unit) (l : list A) :
  (forall x, dsends P (f x)) -> dsends P (dfor_each f l).
Proof.
  intros Hf; induction l as [|x l IH]; simpl.
  - apply dsends_ret.
  - apply dsends_bind; [apply Hf|intros _; exact IH].
Qed.

Lemma dsends_make_request (P : request -> Prop) (w : world) (rq : request) :
  P rq -> dsends P (dM (make_request w rq)).
Proof.
  intros Hp s r s' H; unfold dM in H.
  destruct (make_request w rq (dbot s)) as [r1 b] eqn:E; injection H as <- <-.
  apply make_request_trace in E as (d & Ht & Hr); exists (EReq rq :: d).
  split; [exact Ht|]; simpl; rewrite Hr; constructor; [exact Hp|constructor].
Qed.

Lemma dsends_if (P : request -> Prop) {A} (b : bool) (m1 m2 : DM A) :
  dsends P m1 -> dsends P m2 -> dsends P (if b then m1 else m2).
Proof. destruct b; auto. Qed.

Ltac dsends_tac :=
  repeat first
    [ apply dsends_ret | apply dsends_R | apply dsends_print
    | apply dsends_bind; intros
    | apply dsends_for_each; intros
    | apply dsends_if
    | progress cbv zeta
    | apply dsends_make_request ].

(** test_bot.py only reads: whatever options it is given, every request it
    sends is a GET of the balances, of a ticker, of an order book, or of the
    unfiltered list of open orders.  It never places or cancels an order. *)
Theorem test_main_read_only (w : world) (cfg : config) (args : test_args) (s s' : dstate)
    (r : result unit) :
  test_main w cfg args s = (r, s') ->
  exists d, trace (dbot s') = trace (dbot s) ++ d /\ Forall test_request (reqs_of d).
Proof.
  revert s r s'; change (dsends test_request (test_main w cfg args)).
  unfold test_main; dsends_tac.
  all: split; [reflexivity|];
    first [left; reflexivity
          | right; left; eexists; first [left; reflexivity|right; reflexivity]
          | right; right; reflexivity].
Qed.

(** *** The balance table *)

Lemma insert_desc_in (e z : Q * pyval) (l : list (Q * pyval)) :
  In z (insert_desc e l) -> z = e \/ In z l.
Proof.
  induction l as [|y l IH]; simpl; [intros [->|[]]; left; reflexivity|].
  destruct (Qle_bool (fst e) (fst y)); simpl.
  - intros [->|Hz]; [right; left; reflexivity|].
    destruct (IH Hz) as [->|Hz']; [left; reflexivity|right; right; exact Hz'].
  - intros [->|[->|Hz]]; [left; reflexivity|right; left; reflexivity|right; right; exact Hz].
Qed.

Lemma insert_desc_sorted (e : Q * pyval) (l : list (Q * pyval)) :
  StronglySorted (fun x y => (fst y <= fst x)%Q) l ->
  StronglySorted (fun x y => (fst y <= fst x)%Q) (insert_desc e l).
Proof.
  induction l as [|y l IH]; simpl; intros Hs.
  - repeat constructor.
  - apply StronglySorted_inv in Hs as [Hs Hf].
    destruct (Qle_bool (fst e) (fst y)) eqn:Ey.
    + apply Qle_bool_iff in Ey; constructor; [apply IH, Hs|].
      apply Forall_forall; intros z Hz; apply insert_desc_in in Hz as [->|Hz]; [exact Ey|].
      exact (proj1 (Forall_forall _ _) Hf z Hz).
    + assert (Hlt : (fst y <= fst e)%Q).
      { apply Qlt_le_weak, Qnot_le_lt; intros Hle; apply Qle_bool_iff in Hle; congruence. }
      constructor; [constructor; assumption|].
      constructor; [exact Hlt|].
      apply Forall_forall; intros z Hz.
      apply Qle_trans with (fst y); [exact (proj1 (Forall_forall _ _) Hf z Hz)|exact Hlt].
Qed.

Lemma sort_desc_spec (l : list (Q * pyval)) :
  StronglySorted (fun x y => (fst y <= fst x)%Q) (sort_desc l) /\
  (forall z, In z (sort_desc l) -> In z l).
Proof.
  unfold sort_desc.
  assert (G : forall acc, StronglySorted (fun x y => (fst y <= fst x)%Q) acc ->
     StronglySorted (fun x y => (fst y <= fst x)%Q) (fold_left (fun acc e => insert_desc e acc) l acc) /\
     (forall z, In z (fold_left (fun acc e => insert_desc e acc) l acc) -> In z acc \/ In z l)).
  { induction l as [|e l IH]; intros acc Hacc; simpl.
    - split; [exact Hacc|intros z Hz; left; exact Hz].
    - destruct (IH (insert_desc e acc) (insert_desc_sorted e acc Hacc)) as [H1 H2].
      split; [exact H1|intros z Hz].
      destruct (H2 z Hz) as [Hz'|Hz']; [|right; right; exact Hz'].
      apply insert_desc_in in Hz' as [->|Hz']; [right; left; reflexivity|left; exact Hz']. }
  destruct (G [] (SSorted_nil _)) as [H1 H2]; split; [exact H1|].
  intros z Hz; destruct (H2 z Hz) as [[]|Hz']; exact Hz'.
Qed.

Lemma keyed_spec (items : list pyval) (ks : list (Q * pyval)) :
  keyed items = Ok ks -> Forall (fun e => balance_of (snd e) = Ok (fst e)) ks.
Proof.
  revert ks; induction items as [|x items IH]; simpl; intros ks H.
  - injection H as <-; constructor.
  - destruct (balance_of x) eqn:Ex; [|discriminate H]; simpl in H.
    destruct (keyed items) eqn:Ek; [|discriminate H]; simpl in H.
    injection H as <-; constructor; [exact Ex|apply IH; reflexivity].
Qed.

Lemma row_balances_app (a b : list (nat * pline)) :
  row_balances (a ++ b) = row_balances a ++ row_balances b.
Proof.
  induction a as [|[n l] a IH]; [reflexivity|]; simpl.
  repeat match goal with
         | |- context [match ?p with _ => _ end] => is_var p; destruct p
         end; simpl; rewrite ?IH; reflexivity.
Qed.

Lemma balance_row_out (account : pyval) (b : Q) (s s1 : dstate) (r : result unit) :
  balance_of account = Ok b -> balance_row account s = (r, s1) ->
  exists new, dout s1 = dout s ++ new /\
    (row_balances new = [] \/ (row_balances new = [b] /\ (0 < b)%Q)).
Proof.
  intros Hb H; unfold balance_row in H; dcrush H; try congruence;
    injection H as <- <-; cbn [dout].
  all: try (exists []; split; [rewrite app_nil_r; reflexivity|left; reflexivity]).
  injection Hb as ->.
  eexists; split; [reflexivity|right; split; [reflexivity|apply Qltb_true; assumption]].
Qed.

Lemma balance_rows_sorted (l : list (Q * pyval)) (s s' : dstate) (r : result unit) :
  Forall (fun e => balance_of (snd e) = Ok (fst e)) l ->
  StronglySorted (fun x y => (fst y <= fst x)%Q) l ->
  dfor_each balance_row (map snd l) s = (r, s') ->
  exists new, dout s' = dout s ++ new /\
    StronglySorted (fun a b => (b <= a)%Q) (row_balances new) /\
    Forall (fun b => (0 < b)%Q /\ In b (map fst l)) (row_balances new).
Proof.
  revert s; induction l as [|x l IH]; intros s Hk Hs H; simpl in H.
  - injection H as <- <-; exists []; split; [rewrite app_nil_r; reflexivity|split; constructor].
  - apply Forall_cons_iff in Hk as [Hx Hk]; apply StronglySorted_inv in Hs as [Hs Hf].
    unfold dbind in H; destruct (balance_row (snd x) s) as [[u|e] s1] eqn:E.
    + apply (balance_row_out _ (fst x)) in E as (new1 & Ho1 & Hr1); [|exact Hx].
      apply IH in H as (new2 & Ho2 & Hs2 & Hf2); [|exact Hk|exact Hs].
      exists (new1 ++ new2); split; [rewrite Ho2, Ho1, app_assoc; reflexivity|].
      rewrite row_balances_app.
      assert (Hf2' : Forall (fun b => (0 < b)%Q /\ In b (map fst (x :: l))) (row_balances new2)).
      { eapply Forall_impl; [|exact Hf2]; intros b [Hb Hin]; split; [exact Hb|right; exact Hin]. }
      destruct Hr1 as [-> | [-> Hpos]]; simpl; [split; assumption|].
      split; [constructor; [exact Hs2|]|constructor; [split; [exact Hpos|left; reflexivity]|exact Hf2']].
      eapply Forall_impl; [|exact Hf2]; intros b [_ Hin].
      apply in_map_iff in Hin as (y & <- & Hy).
      exact (proj1 (Forall_forall _ _) Hf y Hy).
    + apply (balance_row_out _ (fst x)) in E as (new1 & Ho1 & Hr1); [|exact Hx].
      injection H as <- <-; exists new1; split; [exact Ho1|].
      destruct Hr1 as [-> | [-> Hpos]]; [split; constructor|].
      split; [repeat constructor|constructor; [split; [exact Hpos|left; reflexivity]|constructor]].
Qed.

(** The balance table of [test_balance_check] lists only assets with a
    strictly positive balance, in decreasing order of balance. *)
Theorem balance_table_sorted (w : world) (s s' : dstate) (r : result unit) :
  test_balance_check w s = (r, s') ->
  exists new, dout s' = dout s ++ new /\
    StronglySorted (fun a b => (b <= a)%Q) (row_balances new) /\
    Forall (fun b => (0 < b)%Q) (row_balances new).
Proof.
  unfold test_balance_check; intros H; dcrush H; try (injection H as <- <-); cbn [dout].
  all: try (eexists; split; [rewrite <- ?app_assoc; reflexivity|]; split; [constructor|constructor]).
  match goal with
  | Ek : keyed _ = Ok ?ks |- _ =>
      destruct (sort_desc_spec ks) as [Hs Hin];
      apply balance_rows_sorted in H as (new & Ho & Hs' & Hf);
      [|apply Forall_forall; intros z Hz; exact (proj1 (Forall_forall _ _) (keyed_spec _ _ Ek) z (Hin z Hz))
       |exact Hs]
  end.
  rewrite Ho; cbn [dout]; eexists; split; [rewrite <- !app_assoc; reflexivity|].
  rewrite !row_balances_app; simpl; split; [exact Hs'|].
  eapply Forall_impl; [|exact Hf]; intros q [Hq _]; exact Hq.
Qed.

(** *** Order sizing in the test script *)

Lemma make_request_exc (w : world) (rq : request) (s s' : state) (e : exn) :
  make_request w rq s = (Exc e, s') -> e = ConnectionError \/ e = KeyboardInterrupt.
Proof.
  unfold make_request, bind, send; simpl.
  destruct (gw w (nreq s) rq) as [st body| |]; simpl;
    [destruct (is_success st)|..]; intros H; injection H as H _; subst; auto; discriminate.
Qed.

Lemma rbind_no_zde {A B} (r : result A) (k : A -> result B) :
  r <> Exc ZeroDivisionError -> (forall a, k a <> Exc ZeroDivisionError) ->
  rbind r k <> Exc ZeroDivisionError.
Proof. destruct r; simpl; [intros _ Hk; apply Hk|intros He _ He2; apply He; injection He2 as ->; reflexivity]. Qed.

Lemma py_getitem_no_zde (v : pyval) (key : string) : py_getitem v key <> Exc ZeroDivisionError.
Proof. destruct v; simpl; try discriminate; destruct (assoc_lookup key kvs); discriminate. Qed.

Lemma py_float_no_zde (v : pyval) : py_float v <> Exc ZeroDivisionError.
Proof. destruct v; simpl; try discriminate; destruct (float_of_string s); discriminate. Qed.

Lemma py_get_no_zde (v : pyval) (key : string) (default : pyval) :
  py_get v key default <> Exc ZeroDivisionError.
Proof. destruct v; simpl; try discriminate; destruct (assoc_lookup key kvs); discriminate. Qed.

Lemma find_asset_balance_no_zde (accounts : list pyval) (asset : string) :
  find_asset_balance accounts asset <> Exc ZeroDivisionError.
Proof.
  induction accounts as [|a rest IH]; simpl; [discriminate|].
  apply rbind_no_zde; [apply py_getitem_no_zde|intros v].
  destruct (py_eq_str v asset); [|exact IH].
  repeat (apply rbind_no_zde; [first [apply py_getitem_no_zde|apply py_float_no_zde]|intros ?]).
  discriminate.
Qed.

Lemma get_asset_balance_no_zde (balances : pyval) (asset : string) :
  get_asset_balance balances asset <> Exc ZeroDivisionError.
Proof.
  unfold get_asset_balance; apply rbind_no_zde; [|intros; apply find_asset_balance_no_zde].
  destruct balances; simpl; discriminate.
Qed.

Lemma calculate_order_size_zde (cfg : config) (pair : string) (balances : pyval) (price : Q)
    (side : string) :
  calculate_order_size cfg pair balances price side = Exc ZeroDivisionError -> (price == 0)%Q.
Proof.
  unfold calculate_order_size; destruct (String.eqb side "BUY").
  - destruct (get_asset_balance balances (quote_asset_of pair)) as [ab|e] eqn:E; simpl.
    + unfold py_div; destruct (Qeq_bool price 0) eqn:Ep; [intros _; apply Qeq_bool_iff; exact Ep|discriminate].
    + intros H; injection H as ->; exfalso; exact (get_asset_balance_no_zde _ _ E).
  - destruct (get_asset_balance balances (base_asset_of pair)) as [ab|e] eqn:E; simpl; [discriminate|].
    intros H; injection H as ->; exfalso; exact (get_asset_balance_no_zde _ _ E).
Qed.

(** [test_order_sizing] never fails with [ZeroDivisionError]: the sizes are
    computed only at a strictly positive mid price. *)
Theorem test_order_sizing_no_zero_division (w : world) (cfg : config) (pair : string)
    (s s' : dstate) (e : exn) :
  test_order_sizing w cfg pair s = (Exc e, s') -> e <> ZeroDivisionError.
Proof.
  unfold test_order_sizing, get_balances, get_ticker; intros H; dcrush H;
    try discriminate H; injection H as -> _.
  all: try match goal with
           | E : make_request _ _ _ = (Exc ?e, _) |- ?e <> _ =>
               apply make_request_exc in E as [->| ->]; discriminate
           end.
  all: try match goal with
           | E : calculate_order_size _ _ _ ?p _ = Exc ?e, Hp : Qltb 0 ?p = true |- ?e <> _ =>
               intros ->; apply calculate_order_size_zde in E;
               apply Qltb_true in Hp; rewrite E in Hp; exact (Qlt_irrefl 0 Hp)
           end.
  all: intros ->; match goal with
                 | E : _ = Exc ZeroDivisionError |- _ =>
                     first [exact (py_float_no_zde _ E) | exact (py_get_no_zde _ _ _ E)]
                 end.
Qed.

(** *** run_demo.py *)

Lemma dfor_each_bot {A} (f : A -> DM unit) (l : list A) :
  (forall x s r s', f x s = (r, s') -> dbot s' = dbot s) ->
  forall s r s', dfor_each f l s = (r, s') -> dbot s' = dbot s.
Proof.
  intros Hf; induction l as [|x l IH]; intros s r s' H; simpl in H.
  - injection H as _ <-; reflexivity.
  - unfold dbind in H; destruct (f x s) as [[u|e] s1] eqn:E; apply Hf in E.
    + apply IH in H; congruence.
    + injection H as _ <-; exact E.
Qed.

Lemma print_book_bot (order_book : pyval) (n : nat) (s s' : dstate) (r : result unit) :
  print_book order_book n s = (r, s') -> dbot s' = dbot s.
Proof.
  unfold print_book, print_book_side; intros H; dcrush H;
    repeat match goal with
           | E : dfor_each _ _ _ = _ |- _ =>
               apply dfor_each_bot in E;
               [|let Hx := fresh "Hx" in intros ? ? ? ? Hx; dcrush Hx; injection Hx as _ <-; reflexivity]
           end;
    try (injection H as _ <-); cbn [dbot] in *; congruence.
Qed.

Ltac demo_facts :=
  repeat match goal with
  | E : make_request _ _ _ = (_, _) |- _ =>
      apply make_request_ok in E as (?Hn & (?d & ?Ht & ?Hr) & ?Hok)
  | E : create_order _ _ _ _ _ _ _ = (_, _) |- _ =>
      apply create_order_trace in E as (?d & ?Ht & ?Hr)
  | E : print_book _ _ _ = _ |- _ => apply print_book_bot in E
  | E : (match ?X with _ => _ end) _ = _ |- _ => destruct_scrut X E
  | E : (match ?X with _ => _ end) = _ |- _ => destruct_scrut X E
  | E : (_, _) = (_, _) |- _ => first [discriminate E | injection E; clear E; intros; subst]
  end; cbn [dbot dout] in *.

Ltac bot_traces :=
  repeat match goal with
         | Ht : trace ?x = _ |- context [trace ?x] => rewrite Ht
         | Hb : dbot ?y = _ |- context [dbot ?y] => rewrite Hb
         | Hb : ?x = dbot ?y |- context [dbot ?y] => rewrite <- Hb
         end.

(** The requests of run_demo.py: a prefix of the reads of the balances, the
    XBTZAR ticker and its order book, or those three reads followed by one
    post-only ASK order of 0.001 at the computed ask quote.  The order is
    sent only when the balances and the ticker were fetched successfully,
    and the XBT balance is above 0.001. *)
Theorem run_demo_requests (w : world) (cfg : config) (s s' : dstate) (r : result unit) :
  run_demo w cfg s = (r, s') ->
  exists d, trace (dbot s') = trace (dbot s) ++ d /\
  ((exists k, (k <= 3)%nat /\ reqs_of d = firstn k demo_reads) \/
   (exists st1 balances items base b st2 ticker prices,
      reqs_of d = demo_reads ++ [post_req cfg "XBTZAR" "ASK" small_volume (p_ask prices)] /\
      gw w (nreq (dbot s)) (req_GET "accounts" []) = RHttp st1 balances /\ is_success st1 = true /\
      py_iter balances = Ok items /\ next_matching items "XBT" = Ok base /\
      balance_of base = Ok b /\ (small_volume < b)%Q /\
      gw w (S (nreq (dbot s))) (ticker_req "XBTZAR") = RHttp st2 ticker /\ is_success st2 = true /\
      get_market_making_prices cfg ticker = Ok prices)).
Proof.
  unfold run_demo, get_balances, get_ticker, get_order_book; intros H; dcrush H;
    try (injection H as <- <-); cbn [dbot] in *; demo_facts; cbn [dbot] in *; bot_traces.
  all: eexists; (split; [rewrite <- ?app_assoc; reflexivity|]).
  all: rewrite ?reqs_of_app; cbn [reqs_of app];
    repeat match goal with Hr : reqs_of ?d = _ |- context [reqs_of ?d] => rewrite Hr end;
    cbn [app].
  all: try solve [left; exists 0%nat; split; [lia|reflexivity]
                 | left; exists 1%nat; split; [lia|reflexivity]
                 | left; exists 2%nat; split; [lia|reflexivity]
                 | left; exists 3%nat; split; [lia|reflexivity]].
  all: right;
    match goal with
    | Hi : py_iter ?bal = Ok ?items, Hx : next_matching ?items "XBT" = Ok ?base,
      Hb : balance_of ?base = Ok ?b, Hq : Qltb small_volume ?b = true,
      Hp : get_market_making_prices _ ?t = Ok ?pr,
      Hk1 : forall v, Ok ?bal = Ok v -> py_truthy v = true ->
              exists st, gw _ (nreq (dbot ?s)) _ = _ /\ _,
      Hk2 : forall v, Ok ?t = Ok v -> py_truthy v = true ->
              exists st, gw _ (nreq ?s0) (ticker_req _) = _ /\ _,
      Hn1 : nreq ?s0 = S (nreq (dbot ?s)),
      T1 : negb (py_truthy ?bal) = false, T2 : negb (py_truthy ?t) = false |- _ =>
        destruct (Hk1 bal eq_refl (proj1 (negb_false_iff _) T1)) as (st1 & G1 & S1);
        destruct (Hk2 t eq_refl (proj1 (negb_false_iff _) T2)) as (st2 & G2 & S2);
        rewrite Hn1 in G2;
        exists st1, bal, items, base, b, st2, t, pr;
        repeat split; try assumption; try reflexivity; apply Qltb_true; assumption
    end.
Qed.

(** *** Order book listings *)








(** ** Sleeping in the run loop *)

Lemma sleeps_of_app (a b : list event) : sleeps_of (a ++ b) = sleeps_of a ++ sleeps_of b.
Proof. induction a as [|[] a IH]; simpl; rewrite ?IH; reflexivity. Qed.

Lemma sleeps_of_not_sleep (d : list event) : Forall not_sleep d -> sleeps_of d = [].
Proof. induction 1 as [|x d Hx _ IH]; [reflexivity|destruct x; simpl; try contradiction; exact IH]. Qed.

Lemma writes_ret (P : event -> Prop) {A} (a : A) : writes P (ret a).
Proof. intros s r s' H; injection H as <- <-; exists []; split; [rewrite app_nil_r; reflexivity|constructor]. Qed.

Lemma writes_raise (P : event -> Prop) {A} (e : exn) : writes P (@raise A e).
Proof. intros s r s' H; injection H as <- <-; exists []; split; [rewrite app_nil_r; reflexivity|constructor]. Qed.

Lemma writes_lift (P : event -> Prop) {A} (x : result A) : writes P (lift x).
Proof. intros s r s' H; injection H as <- <-; exists []; split; [rewrite app_nil_r; reflexivity|constructor]. Qed.

Lemma writes_log (P : event -> Prop) (m : logmsg) : P (ELog m) -> writes P (log m).
Proof. intros Hp s r s' H; injection H as <- <-; exists [ELog m]; split; [reflexivity|repeat constructor; exact Hp]. Qed.

Lemma writes_time_time (P : event -> Prop) (w : world) : writes P (time_time w).
Proof. intros s r s' H; injection H as <- <-; exists []; split; [rewrite app_nil_r; reflexivity|constructor]. Qed.

Lemma writes_bind (P : event -> Prop) {A B} (m : M A) (k : A -> M B) :
  writes P m -> (forall a, writes P (k a)) -> writes P (bind m k).
Proof.
  intros Hm Hk s r s' H; unfold bind in H.
  destruct (m s) as [[a|e] s1] eqn:E; apply Hm in E as (d1 & Ht1 & Hf1).
  - apply Hk in H as (d2 & Ht2 & Hf2).
    exists (d1 ++ d2); split; [rewrite Ht2, Ht1, app_assoc; reflexivity|].
    apply Forall_app; split; assumption.
  - injection H as <- <-; exists d1; split; assumption.
Qed.

Lemma writes_if (P : event -> Prop) {A} (b : bool) (m1 m2 : M A) :
  writes P m1 -> writes P m2 -> writes P (if b then m1 else m2).
Proof. destruct b; auto. Qed.

Lemma writes_for_each (P : event -> Prop) {A} (f : A -> M unit) (l : list A) :
  (forall x, writes P (f x)) -> writes P (for_each f l).
Proof.
  intros Hf; induction l as [|x l IH]; simpl.
  - apply writes_ret.
  - apply writes_bind; [apply Hf|intros _; exact IH].
Qed.

Lemma writes_make_request (w : world) (rq : request) : writes not_sleep (make_request w rq).
Proof.
  intros s r s'; unfold make_request, bind, send, raise, log, emit, ret; simpl.
  destruct (gw w (nreq s) rq) as [st body| |]; [destruct (is_success st)|..];
    intros H; injection H as <- <-; simpl;
    eexists; (split; [rewrite <- ?app_assoc; reflexivity|repeat constructor]).
Qed.

Ltac writes_tac :=
  repeat first
    [ apply writes_make_request
    | apply writes_ret | apply writes_raise | apply writes_lift | apply writes_time_time
    | apply writes_log; exact I
    | apply writes_bind; intros
    | apply writes_for_each; intros
    | apply writes_if
    | progress cbv zeta ].

Lemma cancel_all_orders_no_sleep (w : world) (pair : option string) :
  writes not_sleep (cancel_all_orders w pair).
Proof.
  unfold cancel_all_orders, get_open_orders, cancel_listed, cancel_order; writes_tac.
Qed.

Lemma process_pairs_no_sleep (w : world) (cfg : config) (balances : pyval) (pairs : list string) :
  forall active, writes not_sleep (process_pairs w cfg balances pairs active).
Proof.
  induction pairs as [|p ps IH]; intros active; simpl; [apply writes_ret|].
  apply writes_bind; [|intros; apply IH].
  unfold process_pair, get_ticker, place_side, create_order; writes_tac.
  all: try apply cancel_all_orders_no_sleep.
Qed.

Lemma place_market_making_orders_no_sleep (w : world) (cfg : config) :
  writes not_sleep (place_market_making_orders w cfg).
Proof.
  unfold place_market_making_orders, get_balances; writes_tac; apply process_pairs_no_sleep.
Qed.

(** Every sleep of the bot's loop lasts [ORDER_EXPIRY_MINUTES * 60]
    seconds, and there is at most one per cycle: nothing else in a cycle
    sleeps.  A run of [fuel] cycles that completes sleeps exactly [fuel]
    times. *)
Theorem run_loop_sleeps (w : world) (cfg : config) (fuel : nat) (s s' : state) (r : result unit) :
  run_loop w cfg fuel s = (r, s') ->
  exists d, trace s' = trace s ++ d /\
    sleeps_of d = repeat (order_expiry_minutes cfg * 60) (List.length (sleeps_of d)) /\
    (List.length (sleeps_of d) <= fuel)%nat /\
    (r = Ok tt -> List.length (sleeps_of d) = fuel).
Proof.
  revert s; induction fuel as [|n IH]; intros s H; simpl in H.
  - injection H as <- <-; exists []; split; [rewrite app_nil_r; reflexivity|simpl; repeat split; lia].
  - unfold bind, log, emit in H; cbv beta iota zeta in H.
    destruct (place_market_making_orders w cfg _) as [[a|e] s1] eqn:E;
      apply place_market_making_orders_no_sleep in E as (d1 & Ht1 & Hf1);
      apply sleeps_of_not_sleep in Hf1; cbn [trace] in Ht1.
    + unfold time_sleep in H; cbv beta iota zeta in H; cbn [nsleep trace nreq] in H.
      destruct (sleep_interrupted w (nsleep s1)); cbv beta iota in H.
      * injection H as <- <-; cbn [trace]; rewrite Ht1.
        eexists; split; [rewrite <- !app_assoc; reflexivity|].
        rewrite !sleeps_of_app, Hf1; simpl; repeat split; [lia|discriminate].
      * apply IH in H as (d2 & Ht2 & Hs2 & Hl2 & Hr2); cbn [trace] in Ht2; rewrite Ht1 in Ht2.
        eexists; split; [rewrite Ht2, <- !app_assoc; reflexivity|].
        rewrite !sleeps_of_app, Hf1; simpl.
        split; [f_equal; exact Hs2|].
        split; [lia|intros Hr; rewrite (Hr2 Hr); reflexivity].
    + injection H as <- <-; rewrite Ht1.
      eexists; split; [rewrite <- !app_assoc; reflexivity|].
      rewrite !sleeps_of_app, Hf1; simpl; repeat split; [lia|discriminate].
Qed.

(** ** Witnesses of the script and loop lemmas *)

Lemma test_main_read_only_witness :
  exists d, trace (dbot (snd (test_main demo_world default_config all_args dinit)))
            = trace (dbot dinit) ++ d /\ Forall test_request (reqs_of d).
Proof.
  apply (test_main_read_only demo_world default_config all_args dinit
           (snd (test_main demo_world default_config all_args dinit))
           (fst (test_main demo_world default_config all_args dinit))).
  vm_compute; reflexivity.
Defined.

Lemma balance_table_sorted_witness :
  exists new, dout (snd (test_balance_check demo_world dinit)) = dout dinit ++ new /\
    StronglySorted (fun a b => (b <= a)%Q) (row_balances new) /\
    Forall (fun b => (0 < b)%Q) (row_balances new).
Proof.
  apply (balance_table_sorted demo_world dinit (snd (test_balance_check demo_world dinit))
           (fst (test_balance_check demo_world dinit))).
  vm_compute; reflexivity.
Defined.

Lemma test_order_sizing_no_zero_division_witness :
  fst (test_order_sizing conn_world default_config "XRPZAR" dinit) = Exc ConnectionError /\
  ConnectionError <> ZeroDivisionError.
Proof.
  split; [vm_compute; reflexivity|].
  apply (test_order_sizing_no_zero_division conn_world default_config "XRPZAR" dinit
           (snd (test_order_sizing conn_world default_config "XRPZAR" dinit))).
  vm_compute; reflexivity.
Defined.

Lemma run_demo_requests_witness :
  exists d, trace (dbot (snd (run_demo demo_world default_config dinit))) = trace (dbot dinit) ++ d /\
  ((exists k, (k <= 3)%nat /\ reqs_of d = firstn k demo_reads) \/
   (exists st1 balances items base b st2 ticker prices,
      reqs_of d = demo_reads ++ [post_req default_config "XBTZAR" "ASK" small_volume (p_ask prices)] /\
      gw demo_world (nreq (dbot dinit)) (req_GET "accounts" []) = RHttp st1 balances /\ is_success st1 = true /\
      py_iter balances = Ok items /\ next_matching items "XBT" = Ok base /\
      balance_of base = Ok b /\ (small_volume < b)%Q /\
      gw demo_world (S (nreq (dbot dinit))) (ticker_req "XBTZAR") = RHttp st2 ticker /\
      is_success st2 = true /\ get_market_making_prices default_config ticker = Ok prices)).
Proof.
  apply (run_demo_requests demo_world default_config dinit (snd (run_demo demo_world default_config dinit))
           (fst (run_demo demo_world default_config dinit))).
  vm_compute; reflexivity.
Defined.


Lemma run_loop_sleeps_witness :
  exists d, trace (snd (run_loop demo_world default_config 3 init_state)) = trace init_state ++ d /\
    sleeps_of d = repeat (order_expiry_minutes default_config * 60) (List.length (sleeps_of d)) /\
    (List.length (sleeps_of d) <= 3)%nat /\
    (fst (run_loop demo_world default_config 3 init_state) = Ok tt -> List.length (sleeps_of d) = 3%nat).
Proof.
  apply (run_loop_sleeps demo_world default_config 3 init_state
           (snd (run_loop demo_world default_config 3 init_state))
           (fst (run_loop demo_world default_config 3 init_state))).
  vm_compute; reflexivity.
Defined.
